(** * PyQuest runner service: a shallow embedding of
      [pyquest/services/runner/app.py] and the properties of its
      sandbox executor, test evaluator and result aggregator.

    Python [str] values are modelled as [string]: one [ascii] stands for
    one code point below 256, and the character classes below are the
    ones CPython uses on that range.  JSON values that reach the code
    are modelled by [pyval] (None, booleans, integers, strings). *)

From Stdlib Require Import String Ascii List Bool Arith ZArith Lia DecimalString.
Import ListNotations.

Open Scope string_scope.
Open Scope nat_scope.

(** ** Python strings *)

Module PyStr.

Definition nl : ascii := "010"%char.
Definition newline : string := String nl "".

Definition code (a : ascii) : nat := nat_of_ascii a.

Definition in_range (lo hi : nat) (a : ascii) : bool :=
  (lo <=? code a) && (code a <=? hi).

(** [str.isspace] on one character, which is also the class [\s] of
    the [re] module for [str] patterns: TAB..CR, FS..US, space, NEL
    and the no-break space. *)
Definition is_space (a : ascii) : bool :=
  in_range 9 13 a || in_range 28 32 a || (code a =? 133) || (code a =? 160).

(** The class [\d]: decimal digits. *)
Definition is_digit (a : ascii) : bool := in_range 48 57 a.

(** The class [\w]: alphanumeric characters and the underscore. *)
Definition is_word (a : ascii) : bool :=
  in_range 48 57 a || in_range 65 90 a || (code a =? 95) || in_range 97 122 a
  || (code a =? 170) || in_range 178 179 a || (code a =? 181)
  || in_range 185 186 a || in_range 188 190 a
  || in_range 192 214 a || in_range 216 246 a || in_range 248 255 a.

(** [len(s)]. *)
Definition len (s : string) : nat := String.length s.

(** [bool(s)]: a string is true when it is not empty. *)
Definition truthy (s : string) : bool :=
  match s with EmptyString => false | String _ _ => true end.

(** [s.lstrip()], [s.rstrip()] and [s.strip()]. *)
Fixpoint lstrip (s : string) : string :=
  match s with
  | EmptyString => EmptyString
  | String a s' => if is_space a then lstrip s' else s
  end.

Fixpoint rstrip (s : string) : string :=
  match s with
  | EmptyString => EmptyString
  | String a s' =>
      match rstrip s' with
      | EmptyString => if is_space a then EmptyString else String a EmptyString
      | r => String a r
      end
  end.

Definition strip (s : string) : string := rstrip (lstrip s).

(** [s[:n]]. *)
Fixpoint slice_to (n : nat) (s : string) : string :=
  match n, s with
  | S n', String a s' => String a (slice_to n' s')
  | _, _ => EmptyString
  end.

(** [s.startswith(c)] and [s.endswith(c)] for a one-character [c]. *)
Definition startswith (s : string) (c : ascii) : bool :=
  match s with
  | String a _ => Ascii.eqb a c
  | EmptyString => false
  end.

Fixpoint endswith (s : string) (c : ascii) : bool :=
  match s with
  | EmptyString => false
  | String a EmptyString => Ascii.eqb a c
  | String _ s' => endswith s' c
  end.

(** [s.split(sep)] for a one-character separator: the pieces between
    the separators, empty ones included; never the empty list. *)
Fixpoint split (sep : ascii) (s : string) : list string :=
  match s with
  | EmptyString => [EmptyString]
  | String a s' =>
      if Ascii.eqb a sep then EmptyString :: split sep s'
      else match split sep s' with
           | p :: ps => String a p :: ps
           | [] => [String a EmptyString]
           end
  end.

(** [sub in s]. *)
Fixpoint contains (sub s : string) : bool :=
  prefix sub s ||
  match s with
  | EmptyString => false
  | String _ s' => contains sub s'
  end.

(** The number of bytes of [s] in UTF-8: one for a code point below
    128, two for the others of the range. *)
Fixpoint utf8_len (s : string) : nat :=
  match s with
  | EmptyString => 0
  | String a s' => (if code a <? 128 then 1 else 2) + utf8_len s'
  end.

(** [c * n]. *)
Fixpoint replicate (n : nat) (c : ascii) : string :=
  match n with
  | 0 => EmptyString
  | S n' => String c (replicate n' c)
  end.

End PyStr.

(** ** The fragment of the [re] module the service uses *)

Module Re.
Import PyStr.

(** One-character classes. *)
Inductive cset : Type :=
| CLit (a : ascii)     (* an escaped or ordinary literal character *)
| CSpace               (* \s *)
| CDigit               (* \d *)
| CDot.                (* .  : anything but a newline *)

Definition cset_mem (c : cset) (a : ascii) : bool :=
  match c with
  | CLit b => Ascii.eqb a b
  | CSpace => is_space a
  | CDigit => is_digit a
  | CDot => negb (Ascii.eqb a nl)
  end.

(** Patterns.  Repetition is applied to one-character classes only,
    as in every pattern of the service; there is one capture group. *)
Inductive regex : Type :=
| REps
| RChar (c : cset)
| RWordB                      (* \b *)
| RBol                        (* ^  *)
| REol                        (* $  *)
| RSeq (r1 r2 : regex)
| RAlt (r1 r2 : regex)        (* r1|r2 *)
| RStar (c : cset)            (* c*  greedy *)
| RPlus (c : cset)            (* c+  greedy *)
| RPlusLazy (c : cset)        (* c+? *)
| RGroup (r : regex).         (* ( r ), group 1 *)

(** The state of a match attempt: the character before the current
    position ([None] at the start of the subject), the rest of the
    subject and the text captured by group 1. *)
Record mstate : Type := MState {
  prev : option ascii;
  rest : string;
  grp  : option string
}.

Definition is_word_opt (o : option ascii) : bool :=
  match o with Some a => is_word a | None => false end.

Definition head (s : string) : option ascii :=
  match s with String a _ => Some a | EmptyString => None end.

(** [$] without MULTILINE: at the end, or before a final newline. *)
Definition at_eol (s : string) : bool :=
  match s with
  | EmptyString => true
  | String a EmptyString => Ascii.eqb a nl
  | _ => false
  end.

Definition orelse {A} (x : option A) (y : option A) : option A :=
  match x with Some _ => x | None => y end.

(** The backtracking matcher, in continuation-passing style: the
    continuation [k] is the rest of the pattern, and alternatives are
    tried in the order of the [re] module (longest first for greedy
    repetition, shortest first for lazy repetition, left before right
    for [|]). *)
Fixpoint star_greedy (c : cset) (k : mstate -> option mstate)
    (p : option ascii) (s : string) (g : option string) : option mstate :=
  match s with
  | String a s' =>
      if cset_mem c a
      then orelse (star_greedy c k (Some a) s' g) (k (MState p s g))
      else k (MState p s g)
  | EmptyString => k (MState p s g)
  end.

Fixpoint plus_lazy (c : cset) (k : mstate -> option mstate)
    (s : string) (g : option string) : option mstate :=
  match s with
  | String a s' =>
      if cset_mem c a
      then orelse (k (MState (Some a) s' g)) (plus_lazy c k s' g)
      else None
  | EmptyString => None
  end.

Fixpoint rmatch (r : regex) (k : mstate -> option mstate) (st : mstate)
  : option mstate :=
  match r with
  | REps => k st
  | RChar c =>
      match rest st with
      | String a s' =>
          if cset_mem c a then k (MState (Some a) s' (grp st)) else None
      | EmptyString => None
      end
  | RWordB =>
      if xorb (is_word_opt (prev st)) (is_word_opt (head (rest st)))
      then k st else None
  | RBol => match prev st with None => k st | Some _ => None end
  | REol => if at_eol (rest st) then k st else None
  | RSeq r1 r2 => rmatch r1 (rmatch r2 k) st
  | RAlt r1 r2 => orelse (rmatch r1 k st) (rmatch r2 k st)
  | RStar c => star_greedy c k (prev st) (rest st) (grp st)
  | RPlus c =>
      match rest st with
      | String a s' =>
          if cset_mem c a then star_greedy c k (Some a) s' (grp st) else None
      | EmptyString => None
      end
  | RPlusLazy c => plus_lazy c k (rest st) (grp st)
  | RGroup r1 =>
      rmatch r1
        (fun st' =>
           k (MState (prev st') (rest st')
                (Some (slice_to (len (rest st) - len (rest st')) (rest st)))))
        st
  end.

(** [re.match(r, s)]: a match at the start of [s]. *)
Definition re_match (r : regex) (s : string) : option mstate :=
  rmatch r Some (MState None s None).

(** [re.search(r, s)]: the leftmost position where [r] matches. *)
Fixpoint search_from (r : regex) (p : option ascii) (s : string)
  : option mstate :=
  match rmatch r Some (MState p s None) with
  | Some m => Some m
  | None =>
      match s with
      | String a s' => search_from r (Some a) s'
      | EmptyString => None
      end
  end.

Definition re_search (r : regex) (s : string) : option mstate :=
  search_from r None s.

(** [match.group(1)]. *)
Definition group1 (m : mstate) : string :=
  match grp m with Some g => g | None => EmptyString end.

(** The pattern that the text [re.escape(v)] compiles to: the
    characters of [v], each taken literally. *)
Fixpoint literal (v : string) : regex :=
  match v with
  | EmptyString => REps
  | String a v' => RSeq (RChar (CLit a)) (literal v')
  end.

End Re.

(** ** Python values, dictionaries and exceptions *)

Module Py.
Import PyStr.

(** The JSON scalars, as Python values. *)
Inductive pyval : Type :=
| PNone
| PBool (b : bool)
| PInt (z : Z)
| PStr (s : string).

(** A [dict] with string keys, in insertion order; keys are distinct. *)
Definition dict : Type := list (string * pyval).

Fixpoint lookup {V : Type} (d : list (string * V)) (k : string) : option V :=
  match d with
  | [] => None
  | (k', v) :: d' => if String.eqb k' k then Some v else lookup d' k
  end.

(** [d.get(k, dflt)] and [d.get(k)]. *)
Definition get_default {V : Type} (d : list (string * V)) (k : string) (dflt : V) : V :=
  match lookup d k with Some v => v | None => dflt end.

Definition get (d : dict) (k : string) : pyval := get_default d k PNone.

Definition string_of_Z (z : Z) : string := NilZero.string_of_int (Z.to_int z).

(** [str(v)], which is also what an f-string field [{v}] formats. *)
Definition py_str (v : pyval) : string :=
  match v with
  | PNone => "None"
  | PBool true => "True"
  | PBool false => "False"
  | PInt z => string_of_Z z
  | PStr s => s
  end.

(** [bool(v)]. *)
Definition py_truthy (v : pyval) : bool :=
  match v with
  | PNone => false
  | PBool b => b
  | PInt z => negb (Z.eqb z 0)
  | PStr s => truthy s
  end.

(** [v == w]: booleans compare as the integers 0 and 1. *)
Definition py_eqb (v w : pyval) : bool :=
  match v, w with
  | PNone, PNone => true
  | PBool a, PBool b => Bool.eqb a b
  | PBool a, PInt z | PInt z, PBool a => Z.eqb z (if a then 1 else 0)
  | PInt a, PInt b => Z.eqb a b
  | PStr a, PStr b => String.eqb a b
  | _, _ => false
  end.

(** The double quote character and the one-character string of it. *)
Definition dq : ascii := ascii_of_nat 34.
Definition dquote : string := String dq "".

Definition hex_digit (n : nat) : ascii :=
  if n <? 10 then ascii_of_nat (48 + n) else ascii_of_nat (87 + n).

(** The escape of one character in [json.dumps] (ensure_ascii). *)
Definition json_escape_char (a : ascii) : string :=
  let n := code a in
  if n =? 34 then String "\" dquote
  else if n =? 92 then "\\"
  else if n =? 10 then "\n"
  else if n =? 13 then "\r"
  else if n =? 9 then "\t"
  else if n =? 8 then "\b"
  else if n =? 12 then "\f"
  else if (32 <=? n) && (n <=? 126) then String a ""
  else "\u00" ++ String (hex_digit (n / 16)) (String (hex_digit (n mod 16)) "").

Fixpoint json_escape (s : string) : string :=
  match s with
  | EmptyString => EmptyString
  | String a s' => json_escape_char a ++ json_escape s'
  end.

(** [json.dumps(v)]. *)
Definition json_dumps (v : pyval) : string :=
  match v with
  | PNone => "null"
  | PBool true => "true"
  | PBool false => "false"
  | PInt z => string_of_Z z
  | PStr s => dquote ++ json_escape s ++ dquote
  end.

(** Exceptions the service can meet, by class. *)
Inductive exn : Type :=
| TypeError
| AttributeError.

(** A computation that returns or raises. *)
Inductive result (A : Type) : Type :=
| Ok (a : A)
| Raise (e : exn).
Arguments Ok {A} a.
Arguments Raise {A} e.

Definition bind {A B : Type} (m : result A) (f : A -> result B) : result B :=
  match m with
  | Ok a => f a
  | Raise e => Raise e
  end.

(** A loop that appends the result of [f] for each element, stopping
    at the first exception. *)
Fixpoint map_result {A B : Type} (f : A -> result B) (l : list A)
  : result (list B) :=
  match l with
  | [] => Ok []
  | a :: l' =>
      bind (f a) (fun b => bind (map_result f l') (fun bs => Ok (b :: bs)))
  end.

End Py.

Declare Scope py_scope.
Notation "x <- m ;; k" := (Py.bind m (fun x => k))
  (at level 61, m at next level, right associativity) : py_scope.

(** ** The service: [app.py] *)

Module Runner.
Import PyStr Re Py.
Open Scope py_scope.

(** *** Configuration *)

Definition MAX_EXECUTION_TIME : nat := 2.             (* seconds *)
Definition MAX_OUTPUT_SIZE : nat := 1024 * 1024.      (* 1MB *)
Definition MAX_CODE_SIZE : nat := 100 * 1024.         (* 100KB *)

(** *** The sandbox executor *)

(** What [subprocess.run(..., timeout=MAX_EXECUTION_TIME)] does with a
    program: it completes with the two captured streams, it is killed
    at the time limit ([TimeoutExpired], which holds the output read
    so far), or the call fails with another exception of message
    [msg]. *)
Inductive proc_result : Type :=
| Completed (out err : string)
| TimeoutExpired (partial_out partial_err : string)
| OtherException (msg : string).

(** The world outside the service: how the interpreter behaves on a
    program text, and the milliseconds the clock measures around the
    executor call. *)
Record environment : Type := Environment {
  subprocess_run : string -> proc_result;
  elapsed_ms : Z
}.

(** The sandbox resources the service touches, in order: the scratch
    file made by [NamedTemporaryFile], the call of [subprocess.run]
    and the removal of the scratch file. *)
Inductive event : Type :=
| TempFileCreated
| SubprocessCalled
| TempFileUnlinked.

Definition trace : Type := list event.

(** The dict [execute_python_code] returns. *)
Record outcome : Type := Outcome {
  stdout : string;
  stderr : string
}.

Definition truncation_warning_stdout : string :=
  newline ++ "[Output truncated - exceeded 1MB limit]".
Definition truncation_warning_stderr : string :=
  newline ++ "[Error output truncated - exceeded 1MB limit]".

(** [execute_python_code(code)]: the scratch file is written, the
    interpreter is run on it and the file is unlinked in the [finally]
    clause, whatever the run did.  The creation of the scratch file is
    taken to succeed. *)
Definition execute_python_code (env : environment) (code : string) (t : trace)
  : outcome * trace :=
  let t := (t ++ [TempFileCreated])%list in
  let t := (t ++ [SubprocessCalled])%list in
  let result :=
    match subprocess_run env code with
    | Completed process_stdout process_stderr =>
        let stdout :=
          if truthy process_stdout
          then slice_to MAX_OUTPUT_SIZE process_stdout else EmptyString in
        let stderr :=
          if truthy process_stderr
          then slice_to MAX_OUTPUT_SIZE process_stderr else EmptyString in
        let stdout :=
          if MAX_OUTPUT_SIZE <? len process_stdout
          then stdout ++ truncation_warning_stdout else stdout in
        let stderr :=
          if MAX_OUTPUT_SIZE <? len process_stderr
          then stderr ++ truncation_warning_stderr else stderr in
        Outcome (strip stdout) (strip stderr)
    | TimeoutExpired _ _ =>
        Outcome EmptyString "Error: Execution timeout (2 seconds exceeded)"
    | OtherException msg =>
        Outcome EmptyString ("Execution error: " ++ msg)
    end in
  (result, (t ++ [TempFileUnlinked])%list).

(** *** The test evaluator *)

(** [re.escape(variable)], as the pattern it stands for: a [TypeError]
    when [variable] is not a string. *)
Definition re_escape (variable : pyval) : result regex :=
  match variable with
  | PStr v => Ok (literal v)
  | _ => Raise TypeError
  end.

Definition chr (a : ascii) : regex := RChar (CLit a).

(** [\b<variable>\s*=] *)
Definition exists_pattern (variable : regex) : regex :=
  RSeq RWordB (RSeq variable (RSeq (RStar CSpace) (chr "="))).

(** [<variable>\s*=\s*(.+?)(?:\n|$)] *)
Definition assign_pattern (variable : regex) : regex :=
  RSeq variable (RSeq (RStar CSpace) (RSeq (chr "=") (RSeq (RStar CSpace)
    (RSeq (RGroup (RPlusLazy CDot)) (RAlt (chr nl) REol))))).

(** [<variable>\s*=\s*\[(.+?)\]] *)
Definition list_pattern (variable : regex) : regex :=
  RSeq variable (RSeq (RStar CSpace) (RSeq (chr "=") (RSeq (RStar CSpace)
    (RSeq (chr "[") (RSeq (RGroup (RPlusLazy CDot)) (chr "]")))))).

(** [^\d+$] and [^\d+\.\d+$] *)
Definition int_pattern : regex := RSeq RBol (RSeq (RPlus CDigit) REol).
Definition float_pattern : regex :=
  RSeq RBol (RSeq (RPlus CDigit) (RSeq (chr ".") (RSeq (RPlus CDigit) REol))).

Definition matched (m : option mstate) : bool :=
  match m with Some _ => true | None => false end.

(** The type detection of the [variable_type] branch. *)
Definition detect_type (value : string) : string :=
  if (startswith value dq && endswith value dq)
     || (startswith value "'" && endswith value "'")
  then "str"
  else if matched (re_match int_pattern value) then "int"
  else if matched (re_match float_pattern value) then "float"
  else if startswith value "[" && endswith value "]" then "list"
  else if startswith value "{" && endswith value "}" then "dict"
  else "unknown".

Definition is_type (test_type : pyval) (name : string) : bool :=
  py_eqb test_type (PStr name).

(** [evaluate_test(code, stdout, stderr, test)]: the verdict, a dict,
    or the exception [re.escape] raises. *)
Definition evaluate_test (code stdout stderr : string) (test : dict)
  : result dict :=
  (* If there's a Python error, all tests fail *)
  if truthy stderr && negb (truthy stdout) then
    Ok [ ("description", get_default test "description" (PStr "Test"));
         ("passed", PBool false);
         ("error", PStr stderr);
         ("actual", PStr "Execution error") ]
  else
  let test_type := get test "type" in
  if is_type test_type "output" then
    let expected := strip (py_str (get_default test "expected" (PStr EmptyString))) in
    let actual := strip stdout in
    let passed := String.eqb actual expected in
    Ok [ ("description", get test "description");
         ("passed", PBool passed);
         ("expected", PStr expected);
         ("actual", PStr actual) ]
  else if is_type test_type "variable_exists" then
    let variable := get test "variable" in
    escaped <- re_escape variable ;;
    let exists_ := matched (re_search (exists_pattern escaped) code) in
    Ok [ ("description", get test "description");
         ("passed", PBool exists_);
         ("expected", PStr ("Variable '" ++ py_str variable ++ "' should exist"));
         ("actual", PStr (if exists_ then "Found" else "Not found")) ]
  else if is_type test_type "variable_type" then
    let variable := get test "variable" in
    let expected_type := get test "expectedType" in
    escaped <- re_escape variable ;;
    match re_search (assign_pattern escaped) code with
    | None =>
        Ok [ ("description", get test "description");
             ("passed", PBool false);
             ("expected", expected_type);
             ("actual", PStr "Variable not found") ]
    | Some m =>
        let value := strip (group1 m) in
        let actual_type := detect_type value in
        Ok [ ("description", get test "description");
             ("passed", PBool (py_eqb (PStr actual_type) expected_type));
             ("expected", expected_type);
             ("actual", PStr actual_type) ]
    end
  else if is_type test_type "variable_value" then
    let variable := get test "variable" in
    let expected := get test "expected" in
    escaped <- re_escape variable ;;
    match re_search (assign_pattern escaped) code with
    | None =>
        Ok [ ("description", get test "description");
             ("passed", PBool false);
             ("expected", expected);
             ("actual", PStr "Variable not found") ]
    | Some m =>
        let actual := strip (group1 m) in
        let expected_str := py_str expected in
        let matches :=
          String.eqb actual expected_str
          || String.eqb actual (dquote ++ expected_str ++ dquote)
          || String.eqb actual ("'" ++ expected_str ++ "'") in
        Ok [ ("description", get test "description");
             ("passed", PBool matches);
             ("expected", expected);
             ("actual", PStr actual) ]
    end
  else if is_type test_type "function_call" then
    let expected := strip (py_str (get_default test "expected" (PStr EmptyString))) in
    let output_lines := split nl stdout in
    let passed := existsb (fun line => String.eqb (strip line) expected) output_lines in
    Ok [ ("description", get test "description");
         ("passed", PBool passed);
         ("expected", PStr expected);
         ("actual", PStr stdout) ]
  else if is_type test_type "list_contains" then
    let variable := get test "variable" in
    let expected := get test "expected" in
    escaped <- re_escape variable ;;
    match re_search (list_pattern escaped) code with
    | None =>
        Ok [ ("description", get test "description");
             ("passed", PBool false);
             ("expected", expected);
             ("actual", PStr "List not found") ]
    | Some m =>
        let list_content := group1 m in
        let contains_ :=
          contains (json_dumps expected) list_content
          || contains ("'" ++ py_str expected ++ "'") list_content
          || contains (dquote ++ py_str expected ++ dquote) list_content in
        Ok [ ("description", get test "description");
             ("passed", PBool contains_);
             ("expected", PStr ("List should contain " ++ py_str expected));
             ("actual", PStr list_content) ]
    end
  else if is_type test_type "list_length" then
    let variable := get test "variable" in
    let expected_length := get test "expected" in
    escaped <- re_escape variable ;;
    match re_search (list_pattern escaped) code with
    | None =>
        Ok [ ("description", get test "description");
             ("passed", PBool false);
             ("expected", expected_length);
             ("actual", PStr "List not found") ]
    | Some m =>
        let list_content := group1 m in
        let items :=
          map strip (filter (fun item => truthy (strip item))
                            (split "," list_content)) in
        let actual_length := PInt (Z.of_nat (length items)) in
        Ok [ ("description", get test "description");
             ("passed", PBool (py_eqb actual_length expected_length));
             ("expected", expected_length);
             ("actual", actual_length) ]
    end
  else
    Ok [ ("description", get test "description");
         ("passed", PBool false);
         ("error", PStr ("Unknown test type: " ++ py_str test_type)) ].

(** *** The [/run] endpoint *)

(** A value of the request body: a scalar, or an array of objects. *)
Inductive jvalue : Type :=
| JVal (v : pyval)
| JObjects (l : list dict).

(** The parsed request body, a non-null JSON object ([{}] is the
    empty list of keys). *)
Definition request : Type := list (string * jvalue).

Definition j_truthy (v : jvalue) : bool :=
  match v with
  | JVal v => py_truthy v
  | JObjects [] => false
  | JObjects (_ :: _) => true
  end.

(** [len(v)]: a [TypeError] for None, booleans and integers. *)
Definition j_len (v : jvalue) : result nat :=
  match v with
  | JVal (PStr s) => Ok (len s)
  | JVal _ => Raise TypeError
  | JObjects l => Ok (length l)
  end.

(** The body of a 200 response. *)
Record run_result : Type := RunResult {
  success : bool;
  result_stdout : string;
  result_stderr : string;
  testResults : list dict;
  executionTimeMs : Z;
  allPassed : bool
}.

Inductive response : Type :=
| Http200 (body : run_result)
| Http400 (error : string)
| Http500 (e : exn).

(** The loop over [tests].  A string iterates over its characters,
    which have no [get]; None, booleans and integers do not iterate. *)
Definition evaluate_tests (code stdout stderr : string) (tests : jvalue)
  : result (list dict) :=
  match tests with
  | JObjects l => map_result (evaluate_test code stdout stderr) l
  | JVal (PStr EmptyString) => Ok []
  | JVal (PStr (String _ _)) => Raise AttributeError
  | JVal _ => Raise TypeError
  end.

(** [run_code()], from the parsed body to the response; the
    [except Exception] clause turns an exception into the 500
    response. *)
Definition run_code (env : environment) (data : request) (t : trace)
  : response * trace :=
  match data with
  | [] => (Http400 "Invalid JSON", t)
  | _ :: _ =>
      let code := get_default data "code" (JVal (PStr EmptyString)) in
      let tests := get_default data "tests" (JObjects []) in
      if negb (j_truthy code) then (Http400 "No code provided", t)
      else
        match j_len code with
        | Raise e => (Http500 e, t)
        | Ok n =>
            if MAX_CODE_SIZE <? n then
              (Http400 ("Code exceeds maximum size ("
                        ++ string_of_Z (Z.of_nat MAX_CODE_SIZE) ++ " bytes)"), t)
            else
              match code with
              | JVal (PStr code) =>
                  let '(execution_result, t) := execute_python_code env code t in
                  let execution_time_ms := elapsed_ms env in
                  let stdout := stdout execution_result in
                  let stderr := stderr execution_result in
                  match evaluate_tests code stdout stderr tests with
                  | Raise e => (Http500 e, t)
                  | Ok test_results =>
                      let all_passed :=
                        forallb
                          (fun result =>
                             py_truthy (get_default result "passed" (PBool false)))
                          test_results in
                      (Http200 (RunResult true stdout stderr test_results
                                  execution_time_ms all_passed), t)
                  end
              | _ =>
                  (* [f.write(code)] refuses what is not a string, after
                     the scratch file was made and before the [try] *)
                  (Http500 TypeError, (t ++ [TempFileCreated])%list)
              end
        end
  end.

End Runner.

(** ** The safeguard script: [test-runner.py] *)

Module TestRunner.
Import PyStr Py Runner.

(** What [requests.post(RUNNER_URL/run, json=...)] gives back: the
    response of the service, or nothing when the call raises (no
    connection, no answer within 15 seconds). *)
Definition transport : Type := request -> option response.

(** [test_runner(name, code, tests, expected_pass)]: true when the
    answer is a 200 whose [allPassed] is [expected_pass]; false for
    another status and when the call raised. *)
Definition test_runner (post : transport) (code : string) (tests : list dict)
    (expected_pass : bool) : bool :=
  match post [ ("code", JVal (PStr code)); ("tests", JObjects tests) ] with
  | Some (Http200 result) => Bool.eqb (allPassed result) expected_pass
  | Some _ => false
  | None => false
  end.

(** The programs of the eight tests. *)
Definition hello_code : string :=
  "print(" ++ dquote ++ "Hello, World!" ++ dquote ++ ")".
Definition infinite_loop_code : string :=
  "while True:" ++ newline ++ "    pass".
Definition huge_output_code : string :=
  "for i in range(100000):" ++ newline
  ++ "    print(" ++ dquote ++ "A" ++ dquote ++ " * 1000)".
Definition sleep_code : string :=
  "import time" ++ newline ++ "time.sleep(10)" ++ newline
  ++ "print(" ++ dquote ++ "Done" ++ dquote ++ ")".
Definition variables_code : string :=
  "name = " ++ dquote ++ "Alice" ++ dquote ++ newline
  ++ "age = 25" ++ newline
  ++ "print(f" ++ dquote ++ "{name} is {age}" ++ dquote ++ ")".
Definition lists_code : string :=
  "fruits = [" ++ dquote ++ "apple" ++ dquote ++ ", "
               ++ dquote ++ "banana" ++ dquote ++ ", "
               ++ dquote ++ "cherry" ++ dquote ++ "]".
Definition syntax_error_code : string :=
  "print(" ++ dquote ++ "missing parenthesis" ++ dquote.
Definition runtime_error_code : string := "x = 10 / 0".

Definition output_test (expected description : string) : dict :=
  [ ("type", PStr "output"); ("expected", PStr expected);
    ("description", PStr description) ].

(** [main()]: the eight tests in order, and the exit status, 0 when
    all of them returned true. *)
Definition main (post : transport) : nat :=
  let test1 :=
    test_runner post hello_code
      [ output_test "Hello, World!" "Should print Hello, World!" ] true in
  let test2 :=
    test_runner post infinite_loop_code
      [ output_test EmptyString "Should timeout" ] false in
  let test3 :=
    test_runner post huge_output_code
      [ output_test "test" "Should truncate output" ] false in
  let test4 :=
    test_runner post sleep_code
      [ output_test "Done" "Should timeout before print" ] false in
  let test5 :=
    test_runner post variables_code
      [ [ ("type", PStr "variable_exists"); ("variable", PStr "name");
          ("description", PStr "Should have name variable") ];
        [ ("type", PStr "variable_type"); ("variable", PStr "name");
          ("expectedType", PStr "str");
          ("description", PStr "name should be string") ];
        [ ("type", PStr "variable_value"); ("variable", PStr "age");
          ("expected", PInt 25);
          ("description", PStr "age should be 25") ] ] true in
  let test6 :=
    test_runner post lists_code
      [ [ ("type", PStr "list_contains"); ("variable", PStr "fruits");
          ("expected", PStr "banana");
          ("description", PStr "Should contain banana") ];
        [ ("type", PStr "list_length"); ("variable", PStr "fruits");
          ("expected", PInt 3);
          ("description", PStr "Should have 3 items") ] ] true in
  let test7 :=
    test_runner post syntax_error_code [ output_test "test" "Should error" ] false in
  let test8 :=
    test_runner post runtime_error_code
      [ [ ("type", PStr "variable_exists"); ("variable", PStr "x");
          ("description", PStr "Should error") ] ] false in
  let tests := [test1; test2; test3; test4; test5; test6; test7; test8] in
  let passed := length (filter (fun ok : bool => ok) tests) in
  let total := length tests in
  if passed =? total then 0 else 1.

End TestRunner.

(** * Specification vocabulary *)

Import PyStr Re Py Runner.
Open Scope py_scope.

(** The size limits stay folded in proofs. *)
#[global] Opaque MAX_OUTPUT_SIZE MAX_CODE_SIZE.

(** ** Requests and verdicts *)

(** The body carries a non-empty program text of at most
    [MAX_CODE_SIZE] characters and a (possibly absent) list of test
    objects. *)
Definition accepted (data : request) (code : string) (tests : list dict) : Prop :=
  lookup data "code" = Some (JVal (PStr code))
  /\ truthy code = true
  /\ len code <= MAX_CODE_SIZE
  /\ get_default data "tests" (JObjects []) = JObjects tests.

(** The condition of the global pre-check. *)
Definition execution_failed (stdout stderr : string) : bool :=
  truthy stderr && negb (truthy stdout).

(** The verdict of the global pre-check for one test. *)
Definition execution_error_verdict (stderr : string) (test : dict) : dict :=
  [ ("description", get_default test "description" (PStr "Test"));
    ("passed", PBool false);
    ("error", PStr stderr);
    ("actual", PStr "Execution error") ].

(** [all(result.get('passed', False) for result in test_results)] *)
Definition all_passed (test_results : list dict) : bool :=
  forallb (fun result => py_truthy (get_default result "passed" (PBool false)))
          test_results.

(** The three resources one execution touches. *)
Definition one_execution : trace :=
  [TempFileCreated; SubprocessCalled; TempFileUnlinked].

(** ** Texts *)

Fixpoint all_chars (f : ascii -> bool) (s : string) : bool :=
  match s with
  | EmptyString => true
  | String a s' => f a && all_chars f s'
  end.

Definition is_ascii (s : string) : bool := all_chars (fun a => code a <? 128) s.

(** The text begins with a character that is not whitespace. *)
Definition starts_with_text (s : string) : bool :=
  match s with
  | String a _ => negb (is_space a)
  | EmptyString => false
  end.


Definition no_newline (s : string) : bool := all_chars (cset_mem CDot) s.

(** ** The output bound *)

(** One stream of a completed process, as [execute_python_code]
    returns it. *)
Definition bounded_stream (raw warning : string) : string :=
  strip ((if truthy raw then slice_to MAX_OUTPUT_SIZE raw else EmptyString)
         ++ (if MAX_OUTPUT_SIZE <? len raw then warning else EmptyString)).

(** A stream of more than [MAX_OUTPUT_SIZE] ASCII characters: the kept
    prefix has [MAX_OUTPUT_SIZE] bytes, the result is the trimmed text
    of the prefix and the warning, and it is the prefix followed by the
    warning when the stream begins with text. *)
Definition truncated (raw warning final : string) : Prop :=
  let kept := slice_to MAX_OUTPUT_SIZE raw in
  utf8_len kept = MAX_OUTPUT_SIZE
  /\ final = strip (kept ++ warning)
  /\ (starts_with_text raw = true -> final = kept ++ warning).

(** ** The classes of right-hand sides *)

(** The classes of values, in the words of the rule: a text between
    two quotes of the same kind, a run of digits, two runs of digits
    around one dot, a text between brackets, a text between braces. *)
Definition all_digits (s : string) : bool := truthy s && all_chars is_digit s.

Definition digits_dot_digits (s : string) : bool :=
  match split "." s with
  | [whole; fraction] => all_digits whole && all_digits fraction
  | _ => false
  end.

Definition enclosed (opening closing : ascii) (s : string) : bool :=
  startswith s opening && endswith s closing.

(** The first class that applies, under the names the service reports. *)
Definition classify (value : string) : string :=
  if enclosed dq dq value || enclosed "'" "'" value then "str"
  else if all_digits value then "int"
  else if digits_dot_digits value then "float"
  else if enclosed "[" "]" value then "list"
  else if enclosed "{" "}" value then "dict"
  else "unknown".

(** [\.\d+$] *)
Definition fraction_pattern : regex := RSeq (chr ".") (RSeq (RPlus CDigit) REol).

(** ** List literals *)







(** ** Sample programs, environments and tests *)

Definition syntax_error_env : environment :=
  Environment (fun _ => Completed EmptyString "SyntaxError: '(' was never closed") 12.

Definition syntax_error_request : request :=
  [ ("code", JVal (PStr "print("));
    ("tests", JObjects [ [("type", PStr "output"); ("expected", PStr "test");
                          ("description", PStr "Should error")] ]) ].

Definition busy_loop : string := "while True: pass".

Definition busy_loop_env : environment :=
  Environment (fun _ => TimeoutExpired "partial" EmptyString) 2003.

Definition quiet_env : environment :=
  Environment (fun _ => Completed EmptyString EmptyString) 30.

Definition test_without_variable : dict :=
  [ ("type", PStr "variable_exists"); ("description", PStr "Should have x") ].

(** A program that writes one character more than the limit. *)
Definition long_output : string := replicate (S MAX_OUTPUT_SIZE) "A".

Definition long_output_env : environment :=
  Environment (fun _ => Completed long_output EmptyString) 800.

(** A program that writes [MAX_OUTPUT_SIZE] spaces and a newline. *)
Definition blank_output : string := replicate MAX_OUTPUT_SIZE " " ++ newline.

Definition blank_output_env : environment :=
  Environment (fun _ => Completed blank_output EmptyString) 800.

(** A program of [MAX_CODE_SIZE / 2 + 1] letters e-acute, two bytes each. *)
Definition e_acute : ascii := ascii_of_nat 233.
Definition two_byte_program : string := replicate (MAX_CODE_SIZE / 2 + 1) e_acute.

Definition username_program : string := "username = 5".

Definition two_assignments : string :=
  "username = 5" ++ newline ++ "name = " ++ dquote ++ "Alice" ++ dquote.

Definition name_test (type_name : string) (fields : dict) : dict :=
  (("type", PStr type_name) :: ("variable", PStr "name") :: fields)%list.

Definition alice_program : string := "name = " ++ dquote ++ "Alice" ++ dquote.

Definition alice_type_test (expected_type : string) : dict :=
  [ ("type", PStr "variable_type"); ("variable", PStr "name");
    ("expectedType", PStr expected_type);
    ("description", PStr "name should be string") ].

Definition fruits_program : string :=
  "fruits = [" ++ dquote ++ "apple" ++ dquote ++ ", "
               ++ dquote ++ "banana" ++ dquote ++ ", "
               ++ dquote ++ "cherry" ++ dquote ++ "]".

Definition fruits_content : string :=
  dquote ++ "apple" ++ dquote ++ ", " ++ dquote ++ "banana" ++ dquote ++ ", "
         ++ dquote ++ "cherry" ++ dquote.




Definition hello_program : string :=
  "print(" ++ dquote ++ "Hello, World!" ++ dquote ++ ")".

Definition hello_env : environment :=
  Environment (fun _ => Completed ("Hello, World!" ++ newline) EmptyString) 41.

Definition hello_request : request :=
  [ ("code", JVal (PStr hello_program));
    ("tests", JObjects [ [ ("type", PStr "output");
                           ("expected", PStr "Hello, World!");
                           ("description", PStr "Should print Hello, World!") ] ]) ].

(** ** Tactics *)

(** The choice of the branch of [evaluate_test] for a given type. *)
Ltac dispatch :=
  repeat match goal with
         | |- context [is_type (PStr ?a) ?b] =>
             let v := eval vm_compute in (is_type (PStr a) b) in
             change (is_type (PStr a) b) with v
         end;
  cbv beta iota.

(** ** Positions in a text *)

(** The character before the position reached by reading [u], from a
    position whose previous character is [p]. *)
Fixpoint last_char (u : string) (p : option ascii) : option ascii :=
  match u with
  | EmptyString => p
  | String a u' => last_char u' (Some a)
  end.

(** [\b] between two neighbours: exactly one of them is a word
    character; the ends of the text count as non-word. *)
Definition word_boundary (before after : option ascii) : bool :=
  xorb (is_word_opt before) (is_word_opt after).

(** The text is empty or begins with a newline. *)
Definition at_line_end (s : string) : bool :=
  match s with
  | EmptyString => true
  | String a _ => Ascii.eqb a nl
  end.

(** ** Assignments in a program *)

(** The program holds [var], optional whitespace and [=] at a place
    where [var] begins at a word boundary. *)
Definition assigned_at_boundary (var code : string) : Prop :=
  exists pre ws post,
    code = pre ++ var ++ ws ++ String "=" post
    /\ all_chars is_space ws = true
    /\ word_boundary (last_char pre None) (head (var ++ ws ++ String "=" post)) = true.

(** [(.+?)(?:\n|$)] *)
Definition value_pattern : regex :=
  RSeq (RGroup (RPlusLazy CDot)) (RAlt (chr nl) REol).





(** The program of the test script's variable test. *)
Definition variables_program : string :=
  "name = " ++ dquote ++ "Alice" ++ dquote ++ newline
  ++ "age = 25" ++ newline
  ++ "print(f" ++ dquote ++ "{name} is {age}" ++ dquote ++ ")".



(** ** Outcomes *)

Definition is_space_opt (o : option ascii) : bool :=
  match o with Some a => is_space a | None => false end.

(** The text has no whitespace at either end. *)
Definition trimmed (s : string) : bool :=
  negb (is_space_opt (head s)) && negb (is_space_opt (last_char s None)).

(** The request of a client that sends an array of objects as [code]. *)
Definition array_as_code_request : request :=
  [ ("code", JObjects [ [("print", PInt 1)] ]); ("tests", JObjects []) ].

(** ** Test types *)

(** The types whose branch looks the variable up in the program. *)
Definition variable_based_types : list string :=
  ["variable_exists"; "variable_type"; "variable_value"; "list_contains"; "list_length"].

(** The types [evaluate_test] knows. *)
Definition known_types : list string :=
  ["output"; "variable_exists"; "variable_type"; "variable_value";
   "function_call"; "list_contains"; "list_length"].

Definition type_in (names : list string) (test_type : pyval) : bool :=
  existsb (is_type test_type) names.

Definition is_str (v : pyval) : bool :=
  match v with PStr _ => true | _ => false end.

(** The test makes [re.escape] raise: its branch looks a variable up
    and its [variable] is missing or is not a string. *)
Definition ill_formed (test : dict) : bool :=
  type_in variable_based_types (get test "type") && negb (is_str (get test "variable")).

(** ** The script against the service *)

(** The service behind the transport: every request is answered. *)
Definition serve (env : environment) : TestRunner.transport :=
  fun data => Some (fst (run_code env data [])).

(** The program stopped without writing to stdout and left a text on
    stderr, as a program that raises does. *)
Definition crashes (env : environment) (code : string) : Prop :=
  exists err, subprocess_run env code = Completed EmptyString err
              /\ all_chars is_space err = false.

Definition times_out (env : environment) (code : string) : Prop :=
  exists partial_out partial_err,
    subprocess_run env code = TimeoutExpired partial_out partial_err.

(** The interpreter on the eight programs of the script: what each
    prints, the two that do not end in time, the two that raise; the
    program of the third test either ends with more output than the
    limit or is killed first. *)
Definition interpreter_behaves (env : environment) : Prop :=
  subprocess_run env TestRunner.hello_code
    = Completed ("Hello, World!" ++ newline) EmptyString
  /\ times_out env TestRunner.infinite_loop_code
  /\ ((exists out err, subprocess_run env TestRunner.huge_output_code = Completed out err
                       /\ MAX_OUTPUT_SIZE < len out)
      \/ times_out env TestRunner.huge_output_code)
  /\ times_out env TestRunner.sleep_code
  /\ subprocess_run env TestRunner.variables_code
     = Completed ("Alice is 25" ++ newline) EmptyString
  /\ subprocess_run env TestRunner.lists_code = Completed EmptyString EmptyString
  /\ crashes env TestRunner.syntax_error_code
  /\ crashes env TestRunner.runtime_error_code.

(** An interpreter that behaves so. *)
Definition script_env : environment :=
  Environment
    (fun code =>
       if String.eqb code TestRunner.hello_code
       then Completed ("Hello, World!" ++ newline) EmptyString
       else if String.eqb code TestRunner.variables_code
       then Completed ("Alice is 25" ++ newline) EmptyString
       else if String.eqb code TestRunner.lists_code
       then Completed EmptyString EmptyString
       else if String.eqb code TestRunner.syntax_error_code
       then Completed EmptyString "SyntaxError: '(' was never closed"
       else if String.eqb code TestRunner.runtime_error_code
       then Completed EmptyString "ZeroDivisionError: division by zero"
       else TimeoutExpired EmptyString EmptyString)
    2001.

(** * Properties *)

(** ** Requests the service runs *)

Lemma execute_trace (env : environment) (code : string) (t : trace) :
  snd (execute_python_code env code t) = (t ++ one_execution)%list.
Proof.
  unfold execute_python_code, one_execution. cbn [snd].
  now rewrite <- !app_assoc.
Qed.

Lemma run_code_accepted env data t code tests :
  accepted data code tests ->
  run_code env data t =
    let o := fst (execute_python_code env code t) in
    let t' := (t ++ one_execution)%list in
    match map_result (evaluate_test code (stdout o) (stderr o)) tests with
    | Raise e => (Http500 e, t')
    | Ok test_results =>
        (Http200 (RunResult true (stdout o) (stderr o) test_results
                    (elapsed_ms env) (all_passed test_results)), t')
    end.
Proof.
  intros (Hcode & Hne & Hlen & Htests).
  assert (Hget : get_default data "code" (JVal (PStr EmptyString)) = JVal (PStr code))
    by (unfold get_default; now rewrite Hcode).
  unfold run_code.
  destruct data as [|kv data']; [discriminate|].
  rewrite Htests, !Hget.
  cbn [j_truthy py_truthy j_len]. rewrite Hne. cbn [negb].
  apply Nat.ltb_ge in Hlen. rewrite Hlen.
  pose proof (execute_trace env code t) as Ht.
  destruct (execute_python_code env code t) as [o t1].
  cbn [fst snd] in *. subst t1.
  cbn [evaluate_tests].
  destruct (map_result _ tests); reflexivity.
Qed.

Lemma short_circuit code stdout stderr test :
  truthy stderr = true -> truthy stdout = false ->
  evaluate_test code stdout stderr test = Ok (execution_error_verdict stderr test).
Proof.
  intros He Ho. unfold evaluate_test. now rewrite He, Ho.
Qed.

Lemma map_result_all_ok {A B : Type} (f : A -> result B) (g : A -> B) l :
  (forall a, f a = Ok (g a)) -> map_result f l = Ok (map g l).
Proof.
  intros H. induction l as [|a l IH]; cbn; [reflexivity|].
  now rewrite H, IH.
Qed.

Lemma map_result_length {A B : Type} (f : A -> result B) l bs :
  map_result f l = Ok bs -> length bs = length l.
Proof.
  revert bs. induction l as [|a l IH]; cbn; intros bs H.
  - now inversion H.
  - destruct (f a); [|discriminate]. cbn in H.
    destruct (map_result f l); [|discriminate]. cbn in H.
    inversion H; subst. cbn. f_equal. now apply IH.
Qed.

(** The verdicts follow the order of the tests: the i-th verdict is the
    one [f] returns for the i-th test. *)
Lemma map_result_nth {A B : Type} (f : A -> result B) l bs :
  map_result f l = Ok bs ->
  forall i a, nth_error l i = Some a ->
              exists b, nth_error bs i = Some b /\ f a = Ok b.
Proof.
  revert bs. induction l as [|x l IH]; cbn; intros bs H i a Hi.
  - destruct i; discriminate.
  - destruct (f x) eqn:Hx; [|discriminate]. cbn in H.
    destruct (map_result f l) eqn:Hl; [|discriminate]. cbn in H.
    inversion H; subst. destruct i as [|i]; cbn in *.
    + inversion Hi; subst. eauto.
    + eapply IH; eauto.
Qed.

(** ** The service on the scenarios of its test script *)

Example hello_world_passes :
  run_code hello_env hello_request [] =
    (Http200 (RunResult true "Hello, World!" EmptyString
                [ [ ("description", PStr "Should print Hello, World!");
                    ("passed", PBool true);
                    ("expected", PStr "Hello, World!");
                    ("actual", PStr "Hello, World!") ] ]
                41 true),
     one_execution).
Proof. vm_compute. reflexivity. Qed.

Example busy_loop_fails :
  fst (run_code busy_loop_env
         [ ("code", JVal (PStr busy_loop));
           ("tests", JObjects [ [ ("type", PStr "output"); ("expected", PStr "Done") ] ]) ]
         [])
  = Http200 (RunResult true EmptyString "Error: Execution timeout (2 seconds exceeded)"
               [ execution_error_verdict "Error: Execution timeout (2 seconds exceeded)" [] ]
               2003 false).
Proof. vm_compute. reflexivity. Qed.

Example fruits_contains_banana_not_kiwi :
  evaluate_test fruits_program EmptyString EmptyString
    [ ("type", PStr "list_contains"); ("variable", PStr "fruits");
      ("expected", PStr "banana") ]
  = Ok [ ("description", PNone); ("passed", PBool true);
         ("expected", PStr "List should contain banana");
         ("actual", PStr fruits_content) ]
  /\ evaluate_test fruits_program EmptyString EmptyString
    [ ("type", PStr "list_contains"); ("variable", PStr "fruits");
      ("expected", PStr "kiwi") ]
  = Ok [ ("description", PNone); ("passed", PBool false);
         ("expected", PStr "List should contain kiwi");
         ("actual", PStr fruits_content) ].
Proof. split; vm_compute; reflexivity. Qed.

(** ** C1: a runtime failure fails the whole batch *)

(** C1. For every request the service runs whose execution outcome has
    a non-empty stderr and an empty stdout, the evaluator gives every
    test, whatever its type, the failing verdict that carries the raw
    stderr as [error] and "Execution error" as [actual]; with at least
    one test, [allPassed] is false. *)
Theorem execution_error_fails_every_test :
  forall env data t code tests o,
    accepted data code tests ->
    fst (execute_python_code env code t) = o ->
    truthy (stderr o) = true ->
    truthy (stdout o) = false ->
    (forall test,
        exists v, evaluate_test code (stdout o) (stderr o) test = Ok v
                  /\ get v "passed" = PBool false
                  /\ get v "error" = PStr (stderr o)
                  /\ get v "actual" = PStr "Execution error")
    /\ exists body,
        fst (run_code env data t) = Http200 body
        /\ testResults body = map (execution_error_verdict (stderr o)) tests
        /\ (tests <> [] -> allPassed body = false).
Proof.
  intros env data t code tests o Hacc Ho He Hs. split.
  - intros test. exists (execution_error_verdict (stderr o) test).
    split; [now apply short_circuit|]. repeat split.
  - rewrite (run_code_accepted _ _ _ _ _ Hacc). cbn zeta. rewrite Ho.
    rewrite (map_result_all_ok _ (execution_error_verdict (stderr o)))
      by (intros; now apply short_circuit).
    eexists. split; [reflexivity|]. cbn [testResults allPassed]. split; [reflexivity|].
    intros Hne. destruct tests as [|test tests']; [congruence|]. reflexivity.
Qed.

Lemma execution_error_fails_every_test_witness :
  exists body,
    fst (run_code syntax_error_env syntax_error_request []) = Http200 body
    /\ allPassed body = false.
Proof.
  destruct (execution_error_fails_every_test syntax_error_env syntax_error_request []
              "print("
              [ [("type", PStr "output"); ("expected", PStr "test");
                 ("description", PStr "Should error")] ]
              (Outcome EmptyString "SyntaxError: '(' was never closed"))
    as [_ (body & Hb & _ & Hall)].
  - repeat split. apply Nat.leb_le. vm_compute. reflexivity.
  - vm_compute. reflexivity.
  - reflexivity.
  - reflexivity.
  - exists body. split; [exact Hb|]. apply Hall. discriminate.
Defined.

(** ** C2: the wall-clock bound *)

(** C2, as the code has it. When the program has not terminated within
    the time limit, the outcome has an empty stdout, whatever was
    written before the kill, and its stderr is the message
    "Error: Execution timeout (2 seconds exceeded)"; the outcome has
    these two fields only, and the scratch file is removed. *)
Theorem timeout_outcome :
  forall env code t partial_out partial_err,
    subprocess_run env code = TimeoutExpired partial_out partial_err ->
    execute_python_code env code t =
      (Outcome EmptyString "Error: Execution timeout (2 seconds exceeded)",
       (t ++ one_execution)%list).
Proof.
  intros env code t po pe H.
  rewrite (surjective_pairing (execute_python_code env code t)), execute_trace.
  unfold execute_python_code. cbn [fst]. now rewrite H.
Qed.

Lemma timeout_outcome_witness :
  execute_python_code busy_loop_env busy_loop [] =
    (Outcome EmptyString "Error: Execution timeout (2 seconds exceeded)", one_execution).
Proof.
  apply (timeout_outcome busy_loop_env busy_loop [] "partial" EmptyString).
  reflexivity.
Defined.

(** C2, as stated, fails: the stderr of a timed-out execution is not
    the text "Execution timeout (<limit> seconds exceeded)", for any
    text put for the limit; it starts with "Error: ". *)
Lemma timeout_message_counterexample :
  subprocess_run busy_loop_env busy_loop = TimeoutExpired "partial" EmptyString
  /\ forall limit : string,
      stderr (fst (execute_python_code busy_loop_env busy_loop []))
      <> "Execution timeout (" ++ limit ++ " seconds exceeded)".
Proof.
  split; [reflexivity|]. intros limit H. cbn in H. discriminate H.
Qed.

(** ** C6: no tests *)

(** C6. For every request the service runs with an empty (or absent)
    list of tests, the result has no verdicts and [allPassed] is true,
    whatever the program wrote to stdout and stderr. *)
Theorem empty_tests_all_passed :
  forall env data t code,
    accepted data code [] ->
    exists body,
      fst (run_code env data t) = Http200 body
      /\ result_stdout body = stdout (fst (execute_python_code env code t))
      /\ result_stderr body = stderr (fst (execute_python_code env code t))
      /\ testResults body = []
      /\ allPassed body = true.
Proof.
  intros env data t code Hacc.
  rewrite (run_code_accepted _ _ _ _ _ Hacc). cbn zeta. cbn [map_result fst].
  eexists. repeat split.
Qed.

Lemma empty_tests_all_passed_witness :
  exists body,
    fst (run_code syntax_error_env
           [("code", JVal (PStr "print(")); ("tests", JObjects [])] []) = Http200 body
    /\ result_stderr body = "SyntaxError: '(' was never closed"
    /\ allPassed body = true.
Proof.
  destruct (empty_tests_all_passed syntax_error_env
              [("code", JVal (PStr "print(")); ("tests", JObjects [])] [] "print(")
    as (body & Hb & _ & He & _ & Hall).
  - repeat split. apply Nat.leb_le. vm_compute. reflexivity.
  - exists body. repeat split; assumption.
Defined.

(** ** C8: one verdict per test *)

(** When no evaluation raises, the service returns as many verdicts as
    tests, the i-th verdict being the one of the i-th test. *)
Lemma verdicts_follow_tests env data t code tests body :
  accepted data code tests ->
  fst (run_code env data t) = Http200 body ->
  length (testResults body) = length tests
  /\ forall i test, nth_error tests i = Some test ->
       exists v, nth_error (testResults body) i = Some v
                 /\ evaluate_test code (result_stdout body) (result_stderr body) test = Ok v.
Proof.
  intros Hacc Hrun.
  rewrite (run_code_accepted _ _ _ _ _ Hacc) in Hrun. cbn zeta in Hrun.
  destruct (map_result _ tests) as [rs|e] eqn:Hm; cbn [fst] in Hrun; [|discriminate].
  inversion Hrun; subst body; cbn [testResults result_stdout result_stderr].
  split; [eapply map_result_length; eauto|].
  intros i test Hi. eapply map_result_nth; eauto.
Qed.

(** A test whose [variable] is a string always gets a verdict. *)
Lemma evaluate_test_returns code stdout stderr test var :
  get test "variable" = PStr var ->
  exists v, evaluate_test code stdout stderr test = Ok v.
Proof.
  intros Hv. unfold evaluate_test. rewrite Hv. cbn [re_escape bind].
  repeat match goal with
         | |- context [if ?b then _ else _] => destruct b
         | |- context [match re_search ?r ?c with _ => _ end] => destruct (re_search r c)
         end; eauto.
Qed.

(** C8, at a test object with no [variable]. [re.escape(None)] raises
    a [TypeError]: [evaluate_test] returns no verdict, for each of the
    five variable-based types, and the request that carries such a test
    ends in the 500 response, with no verdict for any of its tests. *)
Theorem missing_variable_raises :
  evaluate_test "x = 1" EmptyString EmptyString test_without_variable = Raise TypeError
  /\ (forall type_name,
        In type_name ["variable_exists"; "variable_type"; "variable_value";
                      "list_contains"; "list_length"] ->
        evaluate_test "x = 1" EmptyString EmptyString [("type", PStr type_name)]
        = Raise TypeError)
  /\ fst (run_code quiet_env
            [ ("code", JVal (PStr "x = 1"));
              ("tests", JObjects [ [("type", PStr "output"); ("expected", PStr EmptyString)];
                                   test_without_variable ]) ] [])
     = Http500 TypeError.
Proof.
  split; [reflexivity|]. split.
  - intros type_name Hin. cbn in Hin.
    repeat (destruct Hin as [<-|Hin]; [reflexivity|]). contradiction.
  - vm_compute. reflexivity.
Qed.

(** ** Lengths, slices and trimming *)

Lemma append_empty_r s : s ++ EmptyString = s.
Proof. induction s as [|a s IH]; cbn; [reflexivity|]. now rewrite IH. Qed.


Lemma len_app s t : len (s ++ t) = len s + len t.
Proof. induction s as [|a s IH]; cbn; [reflexivity|]. unfold len in IH. now rewrite IH. Qed.

Lemma len_replicate n c : len (replicate n c) = n.
Proof. induction n as [|n IH]; cbn; [reflexivity|]. unfold len in IH. now rewrite IH. Qed.

Lemma len_slice_to n s : len (slice_to n s) = Nat.min n (len s).
Proof.
  revert s. induction n as [|n IH]; intros [|a s]; cbn; try reflexivity.
  unfold len in IH. now rewrite IH.
Qed.

Lemma truthy_len s : truthy s = true <-> 0 < len s.
Proof. destruct s; cbn; split; intros; try lia; try discriminate; reflexivity. Qed.

Lemma slice_to_replicate_app n c s : slice_to n (replicate n c ++ s) = replicate n c.
Proof. induction n as [|n IH]; cbn; [now destruct s|]. now rewrite IH. Qed.

Lemma slice_to_replicate_S n c : slice_to n (replicate (S n) c) = replicate n c.
Proof.
  induction n as [|n IH]; [reflexivity|].
  change (replicate (S (S n)) c) with (String c (replicate (S n) c)).
  cbn [slice_to]. rewrite IH. reflexivity.
Qed.

Lemma utf8_len_ascii s : is_ascii s = true -> utf8_len s = len s.
Proof.
  induction s as [|a s IH]; [reflexivity|].
  unfold len, is_ascii in *. cbn [utf8_len String.length all_chars].
  intros H. apply andb_prop in H as [Ha Hs]. rewrite Ha.
  now rewrite (IH Hs).
Qed.

Lemma utf8_len_bounds s : len s <= utf8_len s <= 2 * len s.
Proof.
  induction s as [|a s IH]; [cbn; lia|].
  unfold len in *. cbn [utf8_len String.length].
  destruct (code a <? 128); lia.
Qed.

Lemma utf8_len_replicate_two_bytes n c :
  (code c <? 128) = false -> utf8_len (replicate n c) = 2 * n.
Proof.
  intros Hc. induction n as [|n IH]; [reflexivity|].
  cbn [replicate utf8_len]. rewrite Hc, IH. lia.
Qed.

Lemma is_ascii_slice_to n s : is_ascii s = true -> is_ascii (slice_to n s) = true.
Proof.
  revert s. unfold is_ascii.
  induction n as [|n IH]; intros [|a s]; try reflexivity.
  cbn [slice_to all_chars].
  intros H. apply andb_prop in H as [Ha Hs]. rewrite Ha. now apply IH.
Qed.

Lemma is_ascii_replicate n c : (code c <? 128) = true -> is_ascii (replicate n c) = true.
Proof.
  intros Hc. unfold is_ascii. induction n as [|n IH]; [reflexivity|].
  cbn [replicate all_chars]. now rewrite Hc.
Qed.

Lemma lstrip_replicate_space n c s :
  is_space c = true -> lstrip (replicate n c ++ s) = lstrip s.
Proof. intros Hc. induction n as [|n IH]; cbn; [reflexivity|]. now rewrite Hc. Qed.

Lemma lstrip_text s : starts_with_text s = true -> lstrip s = s.
Proof. destruct s as [|a s]; cbn; [discriminate|]. now destruct (is_space a). Qed.

Lemma rstrip_app_text s t :
  truthy t = true -> rstrip t = t -> rstrip (s ++ t) = s ++ t.
Proof.
  intros Ht Hr. induction s as [|a s IH]; cbn; [exact Hr|].
  rewrite IH. destruct (s ++ t) eqn:E; [|reflexivity].
  destruct s; cbn in E; [subst t|]; discriminate.
Qed.

Lemma len_lstrip s : len (lstrip s) <= len s.
Proof.
  induction s as [|a s IH]; cbn; [lia|]. unfold len in IH.
  destruct (is_space a); cbn; lia.
Qed.

Lemma len_rstrip s : len (rstrip s) <= len s.
Proof.
  induction s as [|a s IH]; cbn; [lia|]. unfold len in IH.
  destruct (rstrip s); [destruct (is_space a)|]; cbn in *; lia.
Qed.

Lemma MAX_OUTPUT_SIZE_value : MAX_OUTPUT_SIZE = 1024 * 1024.
Proof. reflexivity. Qed.

Lemma MAX_OUTPUT_SIZE_pos : 0 < MAX_OUTPUT_SIZE.
Proof. rewrite MAX_OUTPUT_SIZE_value. lia. Qed.

Lemma MAX_CODE_SIZE_value : MAX_CODE_SIZE = 100 * 1024.
Proof. reflexivity. Qed.

(** ** C3: the output bound *)

Lemma execute_completed env code t out err :
  subprocess_run env code = Completed out err ->
  fst (execute_python_code env code t) =
    Outcome (bounded_stream out truncation_warning_stdout)
            (bounded_stream err truncation_warning_stderr).
Proof.
  intros H. unfold execute_python_code, bounded_stream. cbn [fst]. rewrite H.
  f_equal.
  - destruct (MAX_OUTPUT_SIZE <? len out); [reflexivity|now rewrite append_empty_r].
  - destruct (MAX_OUTPUT_SIZE <? len err); [reflexivity|now rewrite append_empty_r].
Qed.

Lemma bounded_stream_truncated raw warning :
  MAX_OUTPUT_SIZE < len raw -> is_ascii raw = true ->
  truthy warning = true -> rstrip warning = warning ->
  truncated raw warning (bounded_stream raw warning).
Proof.
  intros Hlen Hascii Hw Hr. unfold truncated, bounded_stream. cbn zeta.
  assert (Ht : truthy raw = true) by (apply truthy_len; lia).
  rewrite Ht. apply Nat.ltb_lt in Hlen as Hb. rewrite Hb. repeat split.
  - rewrite utf8_len_ascii by now apply is_ascii_slice_to.
    rewrite len_slice_to. lia.
  - intros Hs. unfold strip.
    pose proof MAX_OUTPUT_SIZE_pos as Hpos.
    destruct raw as [|a raw]; [discriminate|].
    destruct MAX_OUTPUT_SIZE as [|n]; [lia|].
    cbn [slice_to]. rewrite lstrip_text by exact Hs.
    change (String a (slice_to n raw) ++ warning)
      with ((String a (slice_to n raw)) ++ warning).
    now apply rstrip_app_text.
Qed.

(** C3, as the code has it. For a completed program whose stdout is
    ASCII text of more than [MAX_OUTPUT_SIZE] (1 MiB) bytes, the
    outcome's stdout is the trimmed text of the first [MAX_OUTPUT_SIZE]
    bytes followed by the warning "\n[Output truncated - exceeded 1MB
    limit]": exactly those bytes followed by the warning when the
    output begins with a character that is not whitespace. stderr is
    bounded independently in the same way, with the warning
    "\n[Error output truncated - exceeded 1MB limit]". The outcome
    consists of the two streams. *)
Theorem output_truncation :
  forall env code t out err,
    subprocess_run env code = Completed out err ->
    (MAX_OUTPUT_SIZE < len out -> is_ascii out = true ->
     truncated out truncation_warning_stdout
               (stdout (fst (execute_python_code env code t))))
    /\ (MAX_OUTPUT_SIZE < len err -> is_ascii err = true ->
        truncated err truncation_warning_stderr
                  (stderr (fst (execute_python_code env code t)))).
Proof.
  intros env code t out err H.
  rewrite (execute_completed _ _ _ _ _ H). cbn [stdout stderr].
  split; intros Hlen Hascii; apply bounded_stream_truncated; auto.
Qed.

Lemma output_truncation_witness :
  stdout (fst (execute_python_code long_output_env "print('A' * 1048576)" []))
  = replicate MAX_OUTPUT_SIZE "A" ++ truncation_warning_stdout.
Proof.
  destruct (output_truncation long_output_env "print('A' * 1048576)" []
              long_output EmptyString eq_refl) as [H _].
  destruct H as (_ & _ & H).
  - unfold long_output. rewrite len_replicate. lia.
  - apply is_ascii_replicate. reflexivity.
  - rewrite H by reflexivity. unfold long_output.
    now rewrite slice_to_replicate_S.
Defined.

Lemma blank_output_stdout :
  stdout (fst (execute_python_code blank_output_env "print(' ' * 1048576)" []))
  = "[Output truncated - exceeded 1MB limit]".
Proof.
  rewrite (execute_completed blank_output_env "print(' ' * 1048576)" []
             blank_output EmptyString eq_refl).
  cbn [stdout].
  unfold bounded_stream, blank_output.
  assert (Hlen : MAX_OUTPUT_SIZE < len (replicate MAX_OUTPUT_SIZE " " ++ newline))
    by (rewrite len_app, len_replicate; cbn; lia).
  assert (Ht : truthy (replicate MAX_OUTPUT_SIZE " " ++ newline) = true)
    by (apply truthy_len; lia).
  apply Nat.ltb_lt in Hlen. rewrite Ht, Hlen, slice_to_replicate_app.
  unfold strip. rewrite lstrip_replicate_space by reflexivity.
  reflexivity.
Qed.

(** C3, as stated, fails. The program writes more than
    [MAX_OUTPUT_SIZE] bytes, and the outcome's stdout is the warning
    alone, without its newline: it is not [MAX_OUTPUT_SIZE] bytes
    followed by anything. *)
Lemma output_truncation_counterexample :
  subprocess_run blank_output_env "print(' ' * 1048576)" = Completed blank_output EmptyString
  /\ MAX_OUTPUT_SIZE < utf8_len blank_output
  /\ forall kept suffix,
      utf8_len kept = MAX_OUTPUT_SIZE ->
      stdout (fst (execute_python_code blank_output_env "print(' ' * 1048576)" []))
      <> kept ++ suffix.
Proof.
  split; [reflexivity|]. split.
  - pose proof (utf8_len_bounds blank_output) as [H _].
    unfold blank_output in *. rewrite len_app, len_replicate in H. cbn in H. lia.
  - intros kept suffix Hk Heq. rewrite blank_output_stdout in Heq.
    apply (f_equal len) in Heq. rewrite len_app in Heq.
    pose proof (utf8_len_bounds kept) as [_ H].
    rewrite Hk, MAX_OUTPUT_SIZE_value in H. cbn [len String.length] in Heq. lia.
Qed.

(** ** C4: the source size check *)

(** A request with no [code], an empty [code] or a [code] of more than
    [MAX_CODE_SIZE] characters gets a 400 response, and no sandbox
    resource is touched. *)
Lemma rejected_before_execution env data t :
  lookup data "code" = None
  \/ lookup data "code" = Some (JVal (PStr EmptyString))
  \/ (exists code, lookup data "code" = Some (JVal (PStr code))
                   /\ MAX_CODE_SIZE < len code) ->
  exists msg, run_code env data t = (Http400 msg, t).
Proof.
  intros H. unfold run_code. destruct data as [|kv data']; [eauto|].
  set (code_value := get_default (kv :: data') "code" (JVal (PStr EmptyString))).
  assert (Hcases : code_value = JVal (PStr EmptyString)
                   \/ exists code, code_value = JVal (PStr code)
                                   /\ MAX_CODE_SIZE < len code).
  { unfold code_value, get_default.
    destruct H as [H|[H|(code & H & Hlen)]]; rewrite H; eauto. }
  clearbody code_value.
  destruct Hcases as [Hc|(src & Hc & Hlen)]; rewrite Hc;
    cbn [j_truthy py_truthy truthy negb]; [now eauto|].
  cbn [j_len].
  destruct (truthy src); cbn [negb]; eauto.
  apply Nat.ltb_lt in Hlen. rewrite Hlen. eauto.
Qed.

(** C4, at a program of more than [MAX_CODE_SIZE] bytes and fewer
    characters. The size check counts characters ([len(code)] of a
    [str]), so the request is not rejected: the scratch file is
    written, the interpreter is started and the response is a 200. *)
Theorem oversized_in_bytes_is_executed :
  forall env,
    MAX_CODE_SIZE < utf8_len two_byte_program
    /\ len two_byte_program <= MAX_CODE_SIZE
    /\ exists body,
        run_code env [("code", JVal (PStr two_byte_program))] []
        = (Http200 body, [TempFileCreated; SubprocessCalled; TempFileUnlinked]).
Proof.
  intros env.
  assert (Hbytes : MAX_CODE_SIZE < utf8_len two_byte_program).
  { unfold two_byte_program. rewrite utf8_len_replicate_two_bytes by reflexivity.
    rewrite MAX_CODE_SIZE_value. pose proof (Nat.div_mod_eq (100 * 1024) 2) as H.
    pose proof (Nat.mod_upper_bound (100 * 1024) 2). lia. }
  assert (Hlen : len two_byte_program <= MAX_CODE_SIZE).
  { unfold two_byte_program. rewrite len_replicate.
    rewrite MAX_CODE_SIZE_value. pose proof (Nat.div_mod_eq (100 * 1024) 2) as H. lia. }
  split; [exact Hbytes|]. split; [exact Hlen|].
  rewrite (run_code_accepted env _ [] two_byte_program []).
  - cbn zeta. cbn [map_result app one_execution]. eexists. reflexivity.
  - repeat split; assumption.
Qed.

(** ** C7: the variable lookups *)

(** C7, at programs where the name is the end of a longer identifier.
    Only [variable_exists] asks for a word boundary before the name.
    On [username = 5] it reports that [name] is not found, while
    [variable_type] and [variable_value] find [name] inside
    [username]; with a later [name = "Alice"] in the program,
    [variable_type] still reports the type of [username]'s value. The
    two list lookups find [list] inside [biglist] in the same way. *)
Theorem lookup_is_not_whole_token :
  evaluate_test username_program EmptyString EmptyString (name_test "variable_exists" [])
  = Ok [ ("description", PNone); ("passed", PBool false);
         ("expected", PStr "Variable 'name' should exist");
         ("actual", PStr "Not found") ]
  /\ evaluate_test username_program EmptyString EmptyString
       (name_test "variable_type" [("expectedType", PStr "int")])
     = Ok [ ("description", PNone); ("passed", PBool true);
            ("expected", PStr "int"); ("actual", PStr "int") ]
  /\ evaluate_test username_program EmptyString EmptyString
       (name_test "variable_value" [("expected", PInt 5)])
     = Ok [ ("description", PNone); ("passed", PBool true);
            ("expected", PInt 5); ("actual", PStr "5") ]
  /\ evaluate_test two_assignments EmptyString EmptyString
       (name_test "variable_type" [("expectedType", PStr "str")])
     = Ok [ ("description", PNone); ("passed", PBool false);
            ("expected", PStr "str"); ("actual", PStr "int") ]
  /\ evaluate_test "biglist = [1, 2]" EmptyString EmptyString
       [ ("type", PStr "list_length"); ("variable", PStr "list"); ("expected", PInt 2) ]
     = Ok [ ("description", PNone); ("passed", PBool true);
            ("expected", PInt 2); ("actual", PInt 2) ]
  /\ evaluate_test "biglist = [1, 2]" EmptyString EmptyString
       [ ("type", PStr "list_contains"); ("variable", PStr "list"); ("expected", PInt 2) ]
     = Ok [ ("description", PNone); ("passed", PBool true);
            ("expected", PStr "List should contain 2"); ("actual", PStr "1, 2") ].
Proof.
  repeat split; vm_compute; reflexivity.
Qed.

(** ** C5: the inferred type of a variable *)

Lemma endswith_tail a s c : endswith (String a s) c = false -> endswith s c = false.
Proof. destruct s; cbn; auto. Qed.

Lemma rstrip_last s c : endswith (rstrip s) c = true -> is_space c = false.
Proof.
  induction s as [|a s IH]; cbn [rstrip]; [discriminate|].
  destruct (rstrip s) as [|b r] eqn:E.
  - destruct (is_space a) eqn:Ha; cbn; [discriminate|].
    intros H. apply Ascii.eqb_eq in H. now subst.
  - exact IH.
Qed.

Lemma strip_no_final_newline s : endswith (strip s) nl = false.
Proof.
  destruct (endswith (strip s) nl) eqn:E; [|reflexivity].
  apply rstrip_last in E. discriminate E.
Qed.

Lemma digit_not_newline a : is_digit a = true -> Ascii.eqb a nl = false.
Proof. destruct (Ascii.eqb_spec a nl) as [->|]; [discriminate|reflexivity]. Qed.

Lemma digit_not_dot a : is_digit a = true -> Ascii.eqb a "." = false.
Proof. destruct (Ascii.eqb_spec a ".") as [->|]; [discriminate|reflexivity]. Qed.

Lemma matched_orelse_none (x : option mstate) : matched (orelse x None) = matched x.
Proof. now destruct x. Qed.

(** [\d*$] after the digits read so far. *)
Lemma star_digits_eol s p g :
  endswith s nl = false ->
  matched (star_greedy CDigit (rmatch REol Some) p s g) = all_chars is_digit s.
Proof.
  revert p. induction s as [|a s IH]; intros p He; [reflexivity|].
  cbn [star_greedy cset_mem all_chars].
  assert (Heol : is_digit a = true \/ s <> EmptyString \/ Ascii.eqb a nl = false ->
                 rmatch REol Some (MState p (String a s) g) = None).
  { intros H. cbn [rmatch rest at_eol]. destruct s; [|reflexivity].
    cbn in He. now rewrite He. }
  destruct (is_digit a) eqn:Hd; cbn [andb].
  - rewrite Heol by auto. rewrite matched_orelse_none.
    apply IH. now apply endswith_tail in He.
  - rewrite Heol; [reflexivity|]. right.
    destruct s; [right; exact He|left; discriminate].
Qed.

Lemma plus_digits_eol s p g :
  endswith s nl = false ->
  matched (rmatch (RSeq (RPlus CDigit) REol) Some (MState p s g)) = all_digits s.
Proof.
  intros He. cbn [rmatch rest grp]. unfold all_digits.
  destruct s as [|a s]; [reflexivity|]. cbn [truthy all_chars cset_mem andb].
  destruct (is_digit a); [|reflexivity].
  apply star_digits_eol. now apply endswith_tail in He.
Qed.

Lemma int_pattern_digits v :
  endswith v nl = false -> matched (re_match int_pattern v) = all_digits v.
Proof. intros He. unfold re_match, int_pattern. now apply plus_digits_eol. Qed.

Lemma split_not_nil sep s : split sep s <> [].
Proof.
  destruct s as [|a s]; cbn; [discriminate|].
  destruct (Ascii.eqb a sep); [discriminate|]. destruct (split sep s); discriminate.
Qed.

Lemma split_single sep s b : split sep s = [b] -> b = s.
Proof.
  revert b. induction s as [|a s IH]; cbn; intros b H.
  - now inversion H.
  - destruct (Ascii.eqb a sep).
    + inversion H as [[Hb Hs]]. now apply split_not_nil in Hs.
    + destruct (split sep s) as [|p ps] eqn:E; [now apply split_not_nil in E|].
      inversion H; subst. f_equal. now apply IH.
Qed.

Lemma split_digits s : all_chars is_digit s = true -> split "." s = [s].
Proof.
  induction s as [|a s IH]; cbn; [reflexivity|].
  intros H. apply andb_prop in H as [Ha Hs].
  rewrite (digit_not_dot _ Ha), (IH Hs). reflexivity.
Qed.

Lemma fraction_spec s p g :
  endswith s nl = false ->
  matched (rmatch fraction_pattern Some (MState p s g)) =
    match s with
    | String a s' => Ascii.eqb a "." && all_digits s'
    | EmptyString => false
    end.
Proof.
  intros He. unfold fraction_pattern, chr.
  cbn [rmatch rest grp cset_mem]. destruct s as [|a s]; [reflexivity|].
  destruct (Ascii.eqb a "."); [|reflexivity]. cbn [andb].
  apply (plus_digits_eol s (Some a) g). now apply endswith_tail in He.
Qed.

Lemma star_digits_fraction s p g :
  endswith s nl = false ->
  matched (star_greedy CDigit (rmatch fraction_pattern Some) p s g) =
    match split "." s with
    | [whole; fraction] => all_chars is_digit whole && all_digits fraction
    | _ => false
    end.
Proof.
  revert p. induction s as [|a s IH]; intros p He.
  - reflexivity.
  - pose proof (endswith_tail _ _ _ He) as He'.
    cbn [star_greedy cset_mem split].
    destruct (is_digit a) eqn:Hd.
    + rewrite (digit_not_dot _ Hd).
      assert (Hk : rmatch fraction_pattern Some (MState p (String a s) g) = None).
      { pose proof (fraction_spec (String a s) p g He) as H.
        cbv beta iota in H. rewrite (digit_not_dot _ Hd) in H. cbn [andb] in H.
        now destruct (rmatch fraction_pattern Some _). }
      rewrite Hk, matched_orelse_none, (IH _ He').
      destruct (split "." s) as [|w [|f [|x l]]]; try reflexivity.
      cbn [all_chars]. now rewrite Hd.
    + rewrite (fraction_spec _ p g He). cbv beta iota.
      destruct (Ascii.eqb a ".") eqn:Hdot; cbn [andb].
      * destruct (all_chars is_digit s) eqn:Hs.
        -- rewrite (split_digits _ Hs). reflexivity.
        -- assert (Hf : all_digits s = false)
             by (unfold all_digits; rewrite Hs; apply andb_false_r).
           rewrite Hf.
           destruct (split "." s) as [|w [|f l]] eqn:E; try reflexivity.
           apply split_single in E. subst w. cbn. exact (eq_sym Hf).
      * destruct (split "." s) as [|w [|f [|x l]]]; try reflexivity.
        cbn [all_chars]. now rewrite Hd.
Qed.

Lemma float_pattern_digits v :
  endswith v nl = false ->
  matched (re_match float_pattern v) = digits_dot_digits v.
Proof.
  intros He. unfold re_match, float_pattern, digits_dot_digits.
  change (RSeq (chr ".") (RSeq (RPlus CDigit) REol)) with fraction_pattern.
  cbn [rmatch prev rest grp cset_mem].
  destruct v as [|a s]; [reflexivity|].
  pose proof (endswith_tail _ _ _ He) as He'.
  cbn [split]. destruct (is_digit a) eqn:Hd.
  - rewrite (digit_not_dot _ Hd), (star_digits_fraction _ _ _ He').
    destruct (split "." s) as [|w [|f [|x l]]]; try reflexivity.
    unfold all_digits at 2. cbn [truthy all_chars andb]. now rewrite Hd.
  - destruct (Ascii.eqb a ".").
    + destruct (split "." s) as [|w [|x l]]; reflexivity.
    + destruct (split "." s) as [|w [|f [|x l]]]; try reflexivity.
      unfold all_digits at 1. cbn [truthy all_chars andb]. now rewrite Hd.
Qed.

(** The type detection of the code follows the rule. *)
Lemma detect_type_classify v :
  endswith v nl = false -> detect_type v = classify v.
Proof.
  intros He. unfold detect_type, classify, enclosed.
  now rewrite (int_pattern_digits _ He), (float_pattern_digits _ He).
Qed.

(** C5, as the code has it. For a [variable_type] test whose
    assignment is found, the inferred type is the first class that
    applies to the trimmed right-hand side: between quotes [str], all
    digits [int], digits dot digits [float], between brackets [list],
    between braces [dict], otherwise [unknown]; the test passes if and
    only if [expectedType] is that name, and [actual] carries it. *)
Theorem variable_type_inference :
  forall code stdout stderr test var m,
    execution_failed stdout stderr = false ->
    get test "type" = PStr "variable_type" ->
    get test "variable" = PStr var ->
    re_search (assign_pattern (literal var)) code = Some m ->
    let inferred := classify (strip (group1 m)) in
    evaluate_test code stdout stderr test =
      Ok [ ("description", get test "description");
           ("passed", PBool (py_eqb (PStr inferred) (get test "expectedType")));
           ("expected", get test "expectedType");
           ("actual", PStr inferred) ]
    /\ (py_eqb (PStr inferred) (get test "expectedType") = true
        <-> get test "expectedType" = PStr inferred).
Proof.
  intros code stdout stderr test var m Hpre Htype Hvar Hm inferred. split.
  - unfold evaluate_test. unfold execution_failed in Hpre. rewrite Hpre, Htype, Hvar.
    dispatch. cbn [re_escape bind]. rewrite Hm.
    rewrite detect_type_classify by apply strip_no_final_newline.
    reflexivity.
  - destruct (get test "expectedType") as [| b | z | s]; cbn [py_eqb];
      try (split; intros H; discriminate H).
    rewrite String.eqb_eq. split; intros H; [now subst|now inversion H].
Qed.

(** For the program [name = "Alice"], the test with [expectedType]
    "str" passes. *)
Lemma variable_type_inference_witness :
  evaluate_test alice_program EmptyString EmptyString (alice_type_test "str") =
    Ok [ ("description", PStr "name should be string");
         ("passed", PBool true);
         ("expected", PStr "str");
         ("actual", PStr "str") ].
Proof.
  exact (proj1 (variable_type_inference alice_program EmptyString EmptyString
                  (alice_type_test "str") "name"
                  (MState (Some dq) EmptyString (Some (dquote ++ "Alice" ++ dquote)))
                  eq_refl eq_refl eq_refl eq_refl)).
Defined.

(** C5, as stated, fails: for the program [name = "Alice"], the test
    with [expectedType] "string" does not pass; the inferred type is
    reported as "str". *)
Lemma variable_type_string_counterexample :
  evaluate_test alice_program EmptyString EmptyString (alice_type_test "string") =
    Ok [ ("description", PStr "name should be string");
         ("passed", PBool false);
         ("expected", PStr "string");
         ("actual", PStr "str") ].
Proof. vm_compute. reflexivity. Qed.

(** ** C9: the length of a list literal *)

Lemma truthy_rstrip s : truthy (rstrip s) = negb (all_chars is_space s).
Proof.
  induction s as [|a s IH]; [reflexivity|]. cbn [rstrip all_chars].
  destruct (rstrip s); cbn [truthy] in *.
  - apply (f_equal negb) in IH. rewrite negb_involutive in IH. cbn in IH.
    rewrite <- IH, andb_true_r. now destruct (is_space a).
  - apply (f_equal negb) in IH. rewrite negb_involutive in IH. cbn in IH.
    rewrite <- IH, andb_false_r. reflexivity.
Qed.

Lemma all_space_lstrip s : all_chars is_space (lstrip s) = all_chars is_space s.
Proof.
  induction s as [|a s IH]; [reflexivity|]. cbn [lstrip all_chars].
  destruct (is_space a) eqn:Ha; [exact IH|]. cbn [all_chars]. now rewrite Ha.
Qed.

Lemma truthy_strip s : truthy (strip s) = negb (all_chars is_space s).
Proof. unfold strip. now rewrite truthy_rstrip, all_space_lstrip. Qed.





(** ** C10: the empty list literal *)




(** The matcher only moves forward: a continuation that succeeds was
    called on a suffix of the text. *)
Section Repetition.

Variable c : cset.
Variable k : mstate -> option mstate.


(** A lazy repetition hands over after a non-empty run of the class. *)
Lemma plus_lazy_inv s g m :
  plus_lazy c k s g = Some m ->
  exists u s' a,
    s = u ++ s' /\ truthy u = true /\ all_chars (cset_mem c) u = true
    /\ k (MState (Some a) s' g) = Some m.
Proof.
  induction s as [|a s IH]; cbn [plus_lazy]; [discriminate|].
  destruct (cset_mem c a) eqn:Ha; [|discriminate].
  destruct (k (MState (Some a) s g)) eqn:E; cbn [orelse].
  - intros H. rewrite <- H in *. exists (String a EmptyString), s, a.
    repeat split; [|exact E]. cbn. now rewrite Ha.
  - intros H. destruct (IH H) as (u & s' & b & -> & _ & Hall & Hk).
    exists (String a u), s', b. repeat split; [|exact Hk].
    cbn. now rewrite Ha, Hall.
Qed.

End Repetition.



Lemma slice_to_app u s : slice_to (len (u ++ s) - len s) (u ++ s) = u.
Proof.
  rewrite len_app. replace (len u + len s - len s) with (len u) by lia.
  induction u as [|a u IH]; cbn; [now destruct s|]. unfold len in IH. now rewrite IH.
Qed.









(** * Further properties of the service *)

(** ** The matcher on runs of a class *)

Section Runs.

Variable c : cset.
Variable k : mstate -> option mstate.

(** What a greedy repetition hands over to the rest of the pattern: a
    run of the class was read. *)
Lemma star_greedy_inv p s g m :
  star_greedy c k p s g = Some m ->
  exists u s',
    s = u ++ s' /\ all_chars (cset_mem c) u = true
    /\ k (MState (last_char u p) s' g) = Some m.
Proof.
  revert p. induction s as [|a s IH]; intros p; cbn [star_greedy].
  - intros H. now exists EmptyString, EmptyString.
  - destruct (cset_mem c a) eqn:Ha.
    + destruct (star_greedy c k (Some a) s g) eqn:E; cbn [orelse].
      * intros H. rewrite <- H in *.
        destruct (IH _ E) as (u & s' & -> & Hu & Hk).
        exists (String a u), s'. cbn. now rewrite Ha.
      * intros H. now exists EmptyString, (String a s).
    + intros H. now exists EmptyString, (String a s).
Qed.

(** The longest run is tried first. *)
Lemma star_greedy_longest u : forall p s g m,
  all_chars (cset_mem c) u = true ->
  match s with String a _ => cset_mem c a = false | EmptyString => True end ->
  k (MState (last_char u p) s g) = Some m ->
  star_greedy c k p (u ++ s) g = Some m.
Proof.
  induction u as [|a u IH]; intros p s g m Hu Hs Hk.
  - cbn [append last_char] in *. destruct s as [|b s]; cbn [star_greedy]; [exact Hk|].
    now rewrite Hs.
  - cbn [all_chars] in Hu. apply andb_prop in Hu as [Ha Hu].
    cbn [append star_greedy]. rewrite Ha.
    now rewrite (IH (Some a) s g m Hu Hs Hk).
Qed.


End Runs.

(** ** The matcher on a literal *)

Lemma rmatch_literal v : forall k p s g,
  rmatch (literal v) k (MState p (v ++ s) g) = k (MState (last_char v p) s g).
Proof.
  induction v as [|a v IH]; intros k p s g; [reflexivity|].
  cbn [literal rmatch rest grp append cset_mem last_char].
  rewrite Ascii.eqb_refl. apply IH.
Qed.

Lemma rmatch_literal_inv v : forall k st m,
  rmatch (literal v) k st = Some m ->
  exists s, rest st = v ++ s
            /\ k (MState (last_char v (prev st)) s (grp st)) = Some m.
Proof.
  induction v as [|a v IH]; intros k st m H.
  - exists (rest st). split; [reflexivity|]. now destruct st.
  - cbn [literal rmatch cset_mem] in H.
    destruct (rest st) as [|b s] eqn:E; [discriminate|].
    destruct (Ascii.eqb_spec b a) as [->|]; [|discriminate].
    apply IH in H as (s' & Hs & Hk). cbn [rest prev grp] in *.
    exists s'. subst s. split; [reflexivity|exact Hk].
Qed.

(** ** The leftmost match *)


(** A search succeeds exactly when the pattern matches at some
    position of the text. *)
Lemma search_from_matched r s : forall p,
  matched (search_from r p s) = true <->
  exists pre s', s = pre ++ s'
                 /\ matched (rmatch r Some (MState (last_char pre p) s' None)) = true.
Proof.
  induction s as [|a s IH]; intros p; cbn [search_from].
  - destruct (rmatch r Some (MState p EmptyString None)) eqn:E.
    + split; [|reflexivity]. intros _. exists EmptyString, EmptyString.
      cbn [append last_char]. now rewrite E.
    + split; [discriminate|]. intros (pre & s' & Hs & Hm).
      destruct pre; [|discriminate]. cbn in Hs. subst s'.
      cbn [last_char] in Hm. now rewrite E in Hm.
  - destruct (rmatch r Some (MState p (String a s) None)) eqn:E.
    + split; [|reflexivity]. intros _. exists EmptyString, (String a s).
      cbn [append last_char]. now rewrite E.
    + rewrite IH. split.
      * intros (pre & s' & -> & Hm). exists (String a pre), s'. now split.
      * intros (pre & s' & Hs & Hm). destruct pre as [|b pre].
        -- cbn in Hs. subst s'. cbn [last_char] in Hm. now rewrite E in Hm.
        -- cbn in Hs. inversion Hs; subst. exists pre, s'. now split.
Qed.

Lemma search_from_inv_prefix r s : forall p m,
  search_from r p s = Some m ->
  exists pre s', s = pre ++ s'
                 /\ rmatch r Some (MState (last_char pre p) s' None) = Some m.
Proof.
  induction s as [|a s IH]; intros p m; cbn [search_from].
  - destruct (rmatch r Some (MState p EmptyString None)) eqn:E; [|discriminate].
    intros H. rewrite <- H in *. now exists EmptyString, EmptyString.
  - destruct (rmatch r Some (MState p (String a s) None)) eqn:E.
    + intros H. rewrite <- H in *. now exists EmptyString, (String a s).
    + intros H. apply IH in H as (pre & s' & -> & Hm).
      now exists (String a pre), s'.
Qed.

(** ** Steps of the matcher *)

Lemma rmatch_seq r1 r2 k st :
  rmatch (RSeq r1 r2) k st = rmatch r1 (rmatch r2 k) st.
Proof. reflexivity. Qed.

Lemma rmatch_star c k p s g :
  rmatch (RStar c) k (MState p s g) = star_greedy c k p s g.
Proof. reflexivity. Qed.

Lemma rmatch_chr a k p s g :
  rmatch (chr a) k (MState p (String a s) g) = k (MState (Some a) s g).
Proof. unfold chr. cbn [rmatch rest grp cset_mem]. now rewrite Ascii.eqb_refl. Qed.

Lemma rmatch_chr_inv a k st m :
  rmatch (chr a) k st = Some m ->
  exists s, rest st = String a s /\ k (MState (Some a) s (grp st)) = Some m.
Proof.
  unfold chr. cbn [rmatch cset_mem]. destruct (rest st) as [|b s]; [discriminate|].
  destruct (Ascii.eqb_spec b a) as [->|]; [|discriminate].
  intros H. now exists s.
Qed.

Lemma rmatch_wordb k st :
  rmatch RWordB k st =
    if word_boundary (prev st) (head (rest st)) then k st else None.
Proof. reflexivity. Qed.

(** ** [variable_exists] *)

Lemma exists_pattern_here var q s :
  matched (rmatch (exists_pattern (literal var)) Some (MState q s None)) = true <->
  word_boundary q (head s) = true
  /\ exists ws post, s = var ++ ws ++ String "=" post
                     /\ all_chars is_space ws = true.
Proof.
  unfold exists_pattern. rewrite rmatch_seq, rmatch_wordb.
  cbn [prev rest]. destruct (word_boundary q (head s)).
  - rewrite rmatch_seq. split.
    + intros H. split; [reflexivity|].
      destruct (rmatch (literal var) _ _) as [m|] eqn:E; [|discriminate].
      apply rmatch_literal_inv in E as (s1 & Hs & E). cbn [rest prev grp] in *.
      rewrite rmatch_seq, rmatch_star in E.
      apply star_greedy_inv in E as (ws & s2 & -> & Hws & E).
      apply rmatch_chr_inv in E as (post & Hp & _). cbn [rest] in Hp. subst s2.
      now exists ws, post.
    + intros (_ & ws & post & -> & Hws).
      rewrite rmatch_literal, rmatch_seq, rmatch_star.
      rewrite (star_greedy_longest CSpace _ ws _ (String "=" post) None
                 (MState (Some "="%char) post None) Hws eq_refl).
      * reflexivity.
      * now rewrite rmatch_chr.
  - split; [discriminate|]. intros [H _]. discriminate.
Qed.

(** X1. [variable_exists] passes exactly when the name occurs in the
    program at a word boundary, followed by optional whitespace and
    [=]; [actual] is "Found" or "Not found" accordingly. *)
Theorem variable_exists_iff_assigned_at_boundary :
  forall code stdout stderr test var,
    execution_failed stdout stderr = false ->
    get test "type" = PStr "variable_exists" ->
    get test "variable" = PStr var ->
    exists found : bool,
      evaluate_test code stdout stderr test =
        Ok [ ("description", get test "description");
             ("passed", PBool found);
             ("expected", PStr ("Variable '" ++ var ++ "' should exist"));
             ("actual", PStr (if found then "Found" else "Not found")) ]
      /\ (found = true <-> assigned_at_boundary var code).
Proof.
  intros code stdout stderr test var Hpre Htype Hvar.
  exists (matched (re_search (exists_pattern (literal var)) code)). split.
  - unfold evaluate_test. unfold execution_failed in Hpre. rewrite Hpre, Htype, Hvar.
    dispatch. reflexivity.
  - unfold re_search, assigned_at_boundary. rewrite search_from_matched. split.
    + intros (pre & s' & -> & H). apply exists_pattern_here in H as (Hb & ws & post & -> & Hws).
      now exists pre, ws, post.
    + intros (pre & ws & post & -> & Hws & Hb).
      exists pre, (var ++ ws ++ String "=" post). split; [reflexivity|].
      apply exists_pattern_here. split; [exact Hb|]. now exists ws, post.
Qed.

Lemma variable_exists_iff_assigned_at_boundary_witness :
  exists found : bool,
    evaluate_test alice_program EmptyString EmptyString
      [ ("type", PStr "variable_exists"); ("variable", PStr "name") ]
    = Ok [ ("description", PNone);
           ("passed", PBool found);
           ("expected", PStr "Variable 'name' should exist");
           ("actual", PStr (if found then "Found" else "Not found")) ]
    /\ (found = true <-> assigned_at_boundary "name" alice_program).
Proof.
  exact (variable_exists_iff_assigned_at_boundary alice_program EmptyString EmptyString
           [ ("type", PStr "variable_exists"); ("variable", PStr "name") ] "name"
           eq_refl eq_refl eq_refl).
Defined.

(** ** The lookup of an assignment *)




Lemma line_end_inv st m :
  rmatch (RAlt (chr nl) REol) Some st = Some m ->
  at_line_end (rest st) = true /\ grp m = grp st.
Proof.
  unfold chr. cbn [rmatch cset_mem]. destruct (rest st) as [|a s] eqn:E.
  - cbn. intros H. inversion H; subst. now cbn.
  - cbn [at_line_end at_eol]. destruct (Ascii.eqb a nl) eqn:Ha; cbn [orelse].
    + intros H. inversion H; subst. now cbn.
    + destruct s; discriminate.
Qed.

Lemma value_pattern_inv st m :
  rmatch value_pattern Some st = Some m ->
  exists value post,
    rest st = value ++ post
    /\ truthy value = true /\ no_newline value = true
    /\ at_line_end post = true
    /\ group1 m = value.
Proof.
  unfold value_pattern. rewrite rmatch_seq. cbn [rmatch]. intros H.
  apply plus_lazy_inv in H as (u & s' & a & Hs & Hu & Hall & Hk).
  apply line_end_inv in Hk as [Hend Hg]. cbn [rest grp prev] in *.
  exists u, s'. repeat split; auto.
  unfold group1. rewrite Hg, Hs. apply slice_to_app.
Qed.




Lemma assign_lookup_inv var code m :
  re_search (assign_pattern (literal var)) code = Some m ->
  exists pre ws1 ws2 post,
    code = pre ++ var ++ ws1 ++ String "=" (ws2 ++ group1 m ++ post)
    /\ all_chars is_space ws1 = true
    /\ all_chars is_space ws2 = true
    /\ truthy (group1 m) = true
    /\ no_newline (group1 m) = true
    /\ at_line_end post = true.
Proof.
  intros H. apply search_from_inv_prefix in H as (pre & s & -> & H).
  unfold assign_pattern in H. fold value_pattern in H.
  rewrite rmatch_seq in H.
  apply rmatch_literal_inv in H as (s1 & Hs & H). cbn [rest prev grp] in *. subst s.
  rewrite rmatch_seq, rmatch_star in H.
  apply star_greedy_inv in H as (ws1 & s2 & -> & H1 & H).
  rewrite rmatch_seq in H.
  apply rmatch_chr_inv in H as (s3 & Hs & H). cbn [rest prev grp] in *. subst s2.
  rewrite rmatch_seq, rmatch_star in H.
  apply star_greedy_inv in H as (ws2 & s4 & -> & H2 & H).
  apply value_pattern_inv in H as (value & post & Hs & Ht & Hn & Hend & Hg).
  cbn [rest] in Hs. subst s4. rewrite Hg.
  now exists pre, ws1, ws2, post.
Qed.

(** X2. what the lookup of [variable_type] and [variable_value]
    captures is always a non-empty piece of one line of the program:
    it stands after the name, optional whitespace, [=] and optional
    whitespace, holds no newline, and is followed by a newline or by
    the end of the program. *)
Theorem assignment_value_is_one_line :
  forall var code m,
    re_search (assign_pattern (literal var)) code = Some m ->
    exists pre ws1 ws2 post,
      code = pre ++ var ++ ws1 ++ String "=" (ws2 ++ group1 m ++ post)
      /\ all_chars is_space ws1 = true
      /\ all_chars is_space ws2 = true
      /\ truthy (group1 m) = true
      /\ no_newline (group1 m) = true
      /\ at_line_end post = true.
Proof. exact assign_lookup_inv. Qed.

Lemma assignment_value_is_one_line_witness :
  exists pre ws1 ws2 post,
    two_assignments = pre ++ "name" ++ ws1 ++ String "=" (ws2 ++ "5" ++ post)
    /\ all_chars is_space ws1 = true
    /\ all_chars is_space ws2 = true
    /\ truthy "5" = true
    /\ no_newline "5" = true
    /\ at_line_end post = true.
Proof.
  exact (assignment_value_is_one_line "name" two_assignments
           (MState (Some nl) ("name = " ++ dquote ++ "Alice" ++ dquote) (Some "5"))
           eq_refl).
Defined.



(** ** The lookup of a list literal *)





(** ** Substrings *)






(** ** The executor on a completed process *)

Lemma slice_to_all n s : len s <= n -> slice_to n s = s.
Proof.
  revert n. induction s as [|a s IH]; intros n H; [now destruct n|].
  destruct n as [|n]; cbn in H; [lia|]. cbn [slice_to]. rewrite IH; [reflexivity|].
  unfold len. lia.
Qed.

Lemma len_strip s : len (strip s) <= len s.
Proof.
  unfold strip. pose proof (len_rstrip (lstrip s)). pose proof (len_lstrip s). lia.
Qed.

Lemma bounded_stream_within_limit raw warning :
  len raw <= MAX_OUTPUT_SIZE -> bounded_stream raw warning = strip raw.
Proof.
  intros H. unfold bounded_stream. apply Nat.ltb_ge in H as Hb. rewrite Hb.
  rewrite append_empty_r. destruct raw as [|a raw]; [reflexivity|].
  cbn [truthy]. now rewrite slice_to_all.
Qed.

Lemma len_bounded_stream raw warning :
  len (bounded_stream raw warning) <= MAX_OUTPUT_SIZE + len warning.
Proof.
  unfold bounded_stream.
  etransitivity; [apply len_strip|]. rewrite len_app.
  assert (len (if truthy raw then slice_to MAX_OUTPUT_SIZE raw else EmptyString)
          <= MAX_OUTPUT_SIZE).
  { destruct (truthy raw); [rewrite len_slice_to|cbn]; lia. }
  destruct (MAX_OUTPUT_SIZE <? len raw); cbn [len String.length] in *; lia.
Qed.

(** X6. a completed program whose streams stay within the limit gets
    them back trimmed and otherwise unchanged, without any warning
    text. *)
Theorem output_within_limit_is_trimmed_text :
  forall env code t out err,
    subprocess_run env code = Completed out err ->
    (len out <= MAX_OUTPUT_SIZE ->
     stdout (fst (execute_python_code env code t)) = strip out)
    /\ (len err <= MAX_OUTPUT_SIZE ->
        stderr (fst (execute_python_code env code t)) = strip err).
Proof.
  intros env code t out err H. rewrite (execute_completed _ _ _ _ _ H).
  cbn [stdout stderr]. split; apply bounded_stream_within_limit.
Qed.

Lemma output_within_limit_is_trimmed_text_witness :
  stdout (fst (execute_python_code hello_env hello_program [])) = "Hello, World!".
Proof.
  destruct (output_within_limit_is_trimmed_text hello_env hello_program []
              ("Hello, World!" ++ newline) EmptyString eq_refl) as [H _].
  rewrite H; [reflexivity|].
  rewrite MAX_OUTPUT_SIZE_value. cbn [len String.length append newline]. lia.
Defined.

(** X7. whatever a completed program writes, the stdout of the outcome
    has at most [MAX_OUTPUT_SIZE + 40] characters and its stderr at
    most [MAX_OUTPUT_SIZE + 46]: the limit and the length of the
    warning. *)
Theorem completed_output_is_bounded :
  forall env code t out err,
    subprocess_run env code = Completed out err ->
    len (stdout (fst (execute_python_code env code t))) <= MAX_OUTPUT_SIZE + 40
    /\ len (stderr (fst (execute_python_code env code t))) <= MAX_OUTPUT_SIZE + 46.
Proof.
  intros env code t out err H. rewrite (execute_completed _ _ _ _ _ H).
  cbn [stdout stderr]. split.
  - apply (len_bounded_stream out truncation_warning_stdout).
  - apply (len_bounded_stream err truncation_warning_stderr).
Qed.

Lemma completed_output_is_bounded_witness :
  len (stdout (fst (execute_python_code long_output_env "print('A' * 1048576)" [])))
  <= MAX_OUTPUT_SIZE + 40.
Proof.
  exact (proj1 (completed_output_is_bounded long_output_env "print('A' * 1048576)" []
                  long_output EmptyString eq_refl)).
Defined.

Lemma lstrip_first s a : startswith (lstrip s) a = true -> is_space a = false.
Proof.
  induction s as [|b s IH]; cbn [lstrip]; [discriminate|].
  destruct (is_space b) eqn:Hb; [exact IH|]. cbn [startswith].
  intros H. apply Ascii.eqb_eq in H. now subst.
Qed.

Lemma rstrip_first s a : startswith (rstrip s) a = true -> startswith s a = true.
Proof.
  destruct s as [|b s]; cbn [rstrip]; [discriminate|].
  destruct (rstrip s); [destruct (is_space b)|]; cbn [startswith]; auto. discriminate.
Qed.

Lemma head_startswith s a : head s = Some a -> startswith s a = true.
Proof. destruct s; cbn; [discriminate|]. intros [= ->]. apply Ascii.eqb_refl. Qed.

Lemma last_char_endswith s : forall p a,
  truthy s = true -> last_char s p = Some a -> endswith s a = true.
Proof.
  induction s as [|b s IH]; intros p a Ht H; [discriminate|].
  cbn [last_char] in H. destruct s as [|c s].
  - cbn in *. inversion H. apply Ascii.eqb_refl.
  - change (endswith (String b (String c s)) a) with (endswith (String c s) a).
    now apply (IH (Some b)).
Qed.

Lemma strip_trimmed s : trimmed (strip s) = true.
Proof.
  unfold trimmed. apply andb_true_intro. split; apply negb_true_iff.
  - destruct (head (strip s)) as [a|] eqn:E; [|reflexivity]. cbn.
    apply head_startswith in E. unfold strip in E.
    apply rstrip_first in E. now apply lstrip_first in E.
  - destruct (strip s) as [|b r] eqn:Es; [reflexivity|].
    destruct (last_char (String b r) None) as [a|] eqn:E; [|reflexivity]. cbn.
    apply last_char_endswith in E; [|reflexivity]. rewrite <- Es in E.
    now apply rstrip_last in E.
Qed.

(** X8. the streams of a completed program come back with no
    whitespace at either end, truncated or not. *)
Theorem completed_output_is_trimmed :
  forall env code t out err,
    subprocess_run env code = Completed out err ->
    trimmed (stdout (fst (execute_python_code env code t))) = true
    /\ trimmed (stderr (fst (execute_python_code env code t))) = true.
Proof.
  intros env code t out err H. rewrite (execute_completed _ _ _ _ _ H).
  cbn [stdout stderr]. unfold bounded_stream. split; apply strip_trimmed.
Qed.

Lemma completed_output_is_trimmed_witness :
  trimmed (stdout (fst (execute_python_code hello_env hello_program []))) = true.
Proof.
  exact (proj1 (completed_output_is_trimmed hello_env hello_program []
                  ("Hello, World!" ++ newline) EmptyString eq_refl)).
Defined.

(** ** Failed executions *)

(** X9. when the program is killed at the time limit, or the
    interpreter cannot be run at all, the request is still answered
    with a 200: stdout is empty, every test gets the pre-check verdict
    (a test without [variable] included), and with at least one test
    [allPassed] is false. *)
Theorem failed_run_fails_every_test :
  forall env data t code tests,
    accepted data code tests ->
    (exists partial_out partial_err,
        subprocess_run env code = TimeoutExpired partial_out partial_err)
    \/ (exists msg, subprocess_run env code = OtherException msg) ->
    exists body,
      fst (run_code env data t) = Http200 body
      /\ success body = true
      /\ result_stdout body = EmptyString
      /\ testResults body = map (execution_error_verdict (result_stderr body)) tests
      /\ (tests <> [] -> allPassed body = false).
Proof.
  intros env data t code tests Hacc Hrun.
  rewrite (run_code_accepted _ _ _ _ _ Hacc). cbn zeta.
  assert (Ho : exists e, fst (execute_python_code env code t) = Outcome EmptyString e
                         /\ truthy e = true).
  { unfold execute_python_code. cbn [fst].
    destruct Hrun as [(po & pe & ->)|(msg & ->)]; eexists; split; reflexivity. }
  destruct Ho as (e & -> & He). cbn [stdout stderr].
  rewrite (map_result_all_ok _ (execution_error_verdict e))
    by (intros; now apply short_circuit).
  eexists. split; [reflexivity|]. cbn [success result_stdout result_stderr testResults allPassed].
  repeat split. intros Hne. destruct tests; [congruence|reflexivity].
Qed.

Lemma failed_run_fails_every_test_witness :
  exists body,
    fst (run_code busy_loop_env
           [ ("code", JVal (PStr busy_loop));
             ("tests", JObjects [ test_without_variable ]) ] []) = Http200 body
    /\ result_stdout body = EmptyString
    /\ allPassed body = false.
Proof.
  destruct (failed_run_fails_every_test busy_loop_env
              [ ("code", JVal (PStr busy_loop));
                ("tests", JObjects [ test_without_variable ]) ] []
              busy_loop [ test_without_variable ])
    as (body & Hb & _ & Hs & _ & Hall).
  - repeat split. apply Nat.leb_le. vm_compute. reflexivity.
  - left. exists "partial", EmptyString. reflexivity.
  - exists body. repeat split; [exact Hb|exact Hs|]. apply Hall. discriminate.
Defined.

(** ** Sandbox resources by response *)

(** X10. a 400 response never touches the sandbox; a 200 response comes
    after exactly one scratch file, one interpreter call and the
    removal of the file; a 500 response comes after none of them, after
    a complete execution, or after the creation of a scratch file that
    is not removed. *)
Theorem resources_by_response :
  forall env data t,
    match run_code env data t with
    | (Http400 _, t') => t' = t
    | (Http200 _, t') => t' = (t ++ one_execution)%list
    | (Http500 _, t') =>
        t' = t \/ t' = (t ++ [TempFileCreated])%list \/ t' = (t ++ one_execution)%list
    end.
Proof.
  intros env data t. unfold run_code.
  destruct data as [|kv data']; [reflexivity|].
  destruct (get_default (kv :: data') "code" (JVal (PStr EmptyString))) as [v|l].
  - destruct (negb (j_truthy (JVal v))); [reflexivity|].
    destruct v as [| b | z | s]; cbn [j_len]; auto.
    destruct (MAX_CODE_SIZE <? len s); [reflexivity|].
    pose proof (execute_trace env s t) as Ht.
    destruct (execute_python_code env s t) as [o t1]. cbn [snd] in Ht. subst t1.
    destruct (evaluate_tests _ _ _ _); auto.
  - destruct (negb (j_truthy (JObjects l))); [reflexivity|].
    cbn [j_len]. destruct (MAX_CODE_SIZE <? length l); auto.
Qed.

(** X11. a request whose [code] is a non-empty array (of at most
    [MAX_CODE_SIZE] elements) passes the size check; the scratch file
    is created, writing the array to it raises, and the 500 response
    is sent without the file being removed. *)
Theorem array_as_code_leaves_scratch_file :
  forall env data t first others,
    lookup data "code" = Some (JObjects (first :: others)) ->
    length (first :: others) <= MAX_CODE_SIZE ->
    run_code env data t = (Http500 TypeError, (t ++ [TempFileCreated])%list).
Proof.
  intros env data t first others Hcode Hlen.
  assert (Hget : get_default data "code" (JVal (PStr EmptyString))
                 = JObjects (first :: others))
    by (unfold get_default; now rewrite Hcode).
  unfold run_code. destruct data as [|kv data']; [discriminate|].
  rewrite !Hget. cbn [j_truthy negb j_len].
  apply Nat.ltb_ge in Hlen. now rewrite Hlen.
Qed.

Lemma array_as_code_leaves_scratch_file_witness :
  run_code quiet_env array_as_code_request [] = (Http500 TypeError, [TempFileCreated]).
Proof.
  apply (array_as_code_leaves_scratch_file quiet_env array_as_code_request []
           [("print", PInt 1)] []).
  - reflexivity.
  - apply Nat.leb_le. vm_compute. reflexivity.
Defined.

(** ** The branches of [evaluate_test] *)

Lemma is_type_iff test_type name : is_type test_type name = true <-> test_type = PStr name.
Proof.
  unfold is_type. destruct test_type as [| b | z | s]; cbn [py_eqb];
    try (split; intros H; discriminate H).
  rewrite String.eqb_eq. split; intros H; [now subst|now inversion H].
Qed.

Lemma type_in_iff names test_type :
  type_in names test_type = true <-> exists name, In name names /\ test_type = PStr name.
Proof.
  unfold type_in. rewrite existsb_exists. split.
  - intros (name & Hin & H). apply is_type_iff in H. eauto.
  - intros (name & Hin & H). exists name. split; [exact Hin|now apply is_type_iff].
Qed.

(** The type of a test is one of the seven known names, or no branch
    but the last applies. *)
Lemma type_cases test_type :
  (exists name, In name known_types /\ test_type = PStr name)
  \/ (forall name, In name known_types -> is_type test_type name = false).
Proof.
  destruct (type_in known_types test_type) eqn:E.
  - left. now apply type_in_iff.
  - right. intros name Hin. unfold type_in in E.
    destruct (is_type test_type name) eqn:Ht; [|reflexivity].
    assert (existsb (is_type test_type) known_types = true)
      by (apply existsb_exists; eauto).
    congruence.
Qed.

(** Case analysis on the type of a test: one goal per known name,
    with the branch chosen, and one for the other values. *)
Ltac by_test_type test :=
  let name := fresh "name" in
  let Hin := fresh "Hin" in
  let Hty := fresh "Hty" in
  let Hnone := fresh "Hnone" in
  destruct (type_cases (get test "type")) as [(name & Hin & Hty)|Hnone];
  [ rewrite Hty in *; clear Hty; cbn [In known_types] in Hin;
    repeat (destruct Hin as [<-|Hin]; [dispatch|]); try contradiction
  | rewrite ?(Hnone "output"), ?(Hnone "variable_exists"), ?(Hnone "variable_type"),
      ?(Hnone "variable_value"), ?(Hnone "function_call"), ?(Hnone "list_contains"),
      ?(Hnone "list_length") by (cbn; tauto) ].

Lemma evaluate_test_raise_iff code stdout stderr test e :
  evaluate_test code stdout stderr test = Raise e <->
  e = TypeError /\ execution_failed stdout stderr = false /\ ill_formed test = true.
Proof.
  unfold evaluate_test, execution_failed, ill_formed, type_in, variable_based_types.
  cbn [existsb].
  destruct (truthy stderr && negb (truthy stdout)).
  { split; [discriminate|]. intros (_ & H & _). discriminate. }
  by_test_type test; cbn [orb andb];
    try (split; [discriminate|intros (_ & _ & H); discriminate H]);
    destruct (get test "variable") as [| b | z | s]; cbn [re_escape bind is_str negb];
    try (split; [intros [= <-]; auto|intros (-> & _); reflexivity]);
    try (destruct (re_search _ code));
    split; try discriminate; intros (_ & _ & H); discriminate H.
Qed.


(** X12. [evaluate_test] raises in one situation only: the global
    pre-check does not apply, the type is one of the five that look a
    variable up, and [variable] is missing or not a string; the
    exception is then a [TypeError].  Every other test object, of
    known type or not, gets a verdict. *)
Theorem evaluate_test_raises_only_on_bad_variable :
  forall code stdout stderr test,
    (forall e, evaluate_test code stdout stderr test = Raise e <->
               e = TypeError /\ execution_failed stdout stderr = false
               /\ ill_formed test = true)
    /\ (execution_failed stdout stderr || negb (ill_formed test) = true <->
        exists v, evaluate_test code stdout stderr test = Ok v).
Proof.
  intros code stdout stderr test. split.
  - intros e. apply evaluate_test_raise_iff.
  - destruct (evaluate_test code stdout stderr test) as [v|e] eqn:E.
    + split; [eauto|]. intros _.
      destruct (execution_failed stdout stderr) eqn:Hf; [reflexivity|].
      destruct (ill_formed test) eqn:Hi; [|reflexivity].
      assert (evaluate_test code stdout stderr test = Raise TypeError)
        by (now apply evaluate_test_raise_iff).
      congruence.
    + apply evaluate_test_raise_iff in E as (_ & -> & ->).
      split; [discriminate|]. intros (v & H). discriminate.
Qed.



(** ** The shape of verdicts *)

Lemma verdict_shape code stdout stderr test v :
  evaluate_test code stdout stderr test = Ok v ->
  exists d b others, v = (("description", d) :: ("passed", PBool b) :: others)%list.
Proof.
  unfold evaluate_test. intros H.
  repeat match type of H with
         | context [re_escape ?x] => destruct x; cbn [re_escape bind] in H
         | context [match re_search ?r ?c with _ => _ end] => destruct (re_search r c)
         | context [if ?b then _ else _] => destruct b
         end;
    try discriminate; inversion H; eauto.
Qed.

Lemma verdict_passed v d b others :
  v = (("description", d) :: ("passed", PBool b) :: others)%list ->
  get v "passed" = PBool b
  /\ py_truthy (get_default v "passed" (PBool false)) = b.
Proof. intros ->. split; reflexivity. Qed.

Lemma map_result_In {A B : Type} (f : A -> result B) l bs :
  map_result f l = Ok bs ->
  forall b, In b bs -> exists a, In a l /\ f a = Ok b.
Proof.
  revert bs. induction l as [|x l IH]; cbn [map_result]; intros bs H b Hb.
  - inversion H; subst. contradiction.
  - destruct (f x) as [y|] eqn:Hx; [|discriminate]. cbn [bind] in H.
    destruct (map_result f l) as [ys|] eqn:Hl; [|discriminate]. cbn [bind] in H.
    inversion H; subst. destruct Hb as [<-|Hb].
    + exists x. split; [now left|exact Hx].
    + destruct (IH _ eq_refl _ Hb) as (a & Ha & Hf). exists a. split; [now right|exact Hf].
Qed.

(** X14. every verdict of a 200 response begins with [description] and
    a boolean [passed]; there is one verdict per test, the i-th being
    the verdict of the i-th test alone on the response's stdout and
    stderr; and [allPassed] is true exactly when [passed] is true in
    every verdict. *)
Theorem verdicts_are_per_test_and_aggregated :
  forall env data t code tests body,
    accepted data code tests ->
    fst (run_code env data t) = Http200 body ->
    length (testResults body) = length tests
    /\ (forall i test, nth_error tests i = Some test ->
          exists v d b others,
            nth_error (testResults body) i = Some v
            /\ evaluate_test code (result_stdout body) (result_stderr body) test = Ok v
            /\ v = (("description", d) :: ("passed", PBool b) :: others)%list)
    /\ (allPassed body = true <->
        forall v, In v (testResults body) -> get v "passed" = PBool true).
Proof.
  intros env data t code tests body Hacc Hrun.
  destruct (verdicts_follow_tests _ _ _ _ _ _ Hacc Hrun) as [Hlen Hnth].
  split; [exact Hlen|]. split.
  - intros i test Hi. destruct (Hnth i test Hi) as (v & Hv & He).
    destruct (verdict_shape _ _ _ _ _ He) as (d & b & others & Hs).
    now exists v, d, b, others.
  - rewrite (run_code_accepted _ _ _ _ _ Hacc) in Hrun. cbn zeta in Hrun.
    destruct (map_result _ tests) as [rs|e] eqn:Hm; cbn [fst] in Hrun; [|discriminate].
    inversion Hrun; subst body; cbn [testResults allPassed].
    unfold all_passed. rewrite forallb_forall.
    split; intros H v Hv;
      destruct (map_result_In _ _ _ Hm v Hv) as (test & _ & He);
      destruct (verdict_shape _ _ _ _ _ He) as (d & b & others & Hs);
      destruct (verdict_passed _ _ _ _ Hs) as [Hg Hp];
      specialize (H v Hv); congruence.
Qed.

Lemma verdicts_are_per_test_and_aggregated_witness :
  allPassed (RunResult true "Hello, World!" EmptyString
               [ [ ("description", PStr "Should print Hello, World!");
                   ("passed", PBool true);
                   ("expected", PStr "Hello, World!");
                   ("actual", PStr "Hello, World!") ] ] 41 true) = true
  <-> forall v,
        In v [ [ ("description", PStr "Should print Hello, World!");
                 ("passed", PBool true);
                 ("expected", PStr "Hello, World!");
                 ("actual", PStr "Hello, World!") ] ] ->
        get v "passed" = PBool true.
Proof.
  refine (proj2 (proj2 (verdicts_are_per_test_and_aggregated hello_env hello_request []
                          hello_program _ _ _ _))).
  - repeat split. apply Nat.leb_le. vm_compute. reflexivity.
  - vm_compute. reflexivity.
Defined.

(** ** When a request ends in a 500 *)




(** ** What each strategy reads *)

(** X16. the five variable-based strategies read the program text only:
    as long as the pre-check does not apply, their verdict is the same
    whatever the program wrote. The two output strategies read stdout
    only: their verdict does not depend on the program text. *)
Theorem strategies_read_their_own_input :
  forall code code' stdout stdout' stderr stderr' test,
    execution_failed stdout stderr = false ->
    execution_failed stdout' stderr' = false ->
    (type_in variable_based_types (get test "type") = true ->
     evaluate_test code stdout stderr test = evaluate_test code stdout' stderr' test)
    /\ (type_in ["output"; "function_call"] (get test "type") = true ->
        evaluate_test code stdout stderr test = evaluate_test code' stdout stderr test).
Proof.
  intros code code' stdout stdout' stderr stderr' test Hf Hf'.
  unfold execution_failed in *. unfold evaluate_test. rewrite Hf, Hf'.
  split; intros Hty; by_test_type test; try reflexivity;
    exfalso; revert Hty; vm_compute; try discriminate;
    intros Hty; rewrite ?(Hnone "output"), ?(Hnone "variable_exists"),
      ?(Hnone "variable_type"), ?(Hnone "variable_value"), ?(Hnone "function_call"),
      ?(Hnone "list_contains"), ?(Hnone "list_length") in Hty by (cbn; tauto);
    discriminate.
Qed.

Lemma strategies_read_their_own_input_witness :
  evaluate_test alice_program EmptyString EmptyString (alice_type_test "str")
  = evaluate_test alice_program "Alice is 25" "DeprecationWarning" (alice_type_test "str").
Proof.
  exact (proj1 (strategies_read_their_own_input alice_program EmptyString
                  EmptyString "Alice is 25" EmptyString "DeprecationWarning"
                  (alice_type_test "str") eq_refl eq_refl) eq_refl).
Defined.

(** ** Output of one line *)

Lemma split_no_separator sep s :
  all_chars (fun a => negb (Ascii.eqb a sep)) s = true -> split sep s = [s].
Proof.
  induction s as [|a s IH]; cbn [all_chars split]; [reflexivity|].
  intros H. apply andb_prop in H as [Ha Hs]. apply negb_true_iff in Ha.
  now rewrite Ha, (IH Hs).
Qed.

(** X17. on an output of one line, [output] and [function_call] agree:
    with the same [expected], both pass or both fail. *)
Theorem one_line_output_and_function_call_agree :
  forall code stdout stderr test_output test_call,
    execution_failed stdout stderr = false ->
    no_newline stdout = true ->
    get test_output "type" = PStr "output" ->
    get test_call "type" = PStr "function_call" ->
    lookup test_output "expected" = lookup test_call "expected" ->
    exists v w,
      evaluate_test code stdout stderr test_output = Ok v
      /\ evaluate_test code stdout stderr test_call = Ok w
      /\ get v "passed" = get w "passed".
Proof.
  intros code stdout stderr t1 t2 Hf Hn H1 H2 He.
  unfold evaluate_test. unfold execution_failed in Hf. rewrite Hf, H1, H2.
  dispatch. eexists. eexists. split; [reflexivity|]. split; [reflexivity|].
  unfold get_default. rewrite He.
  unfold no_newline in Hn. rewrite (split_no_separator nl stdout Hn).
  cbn [existsb]. rewrite orb_false_r. reflexivity.
Qed.

Lemma one_line_output_and_function_call_agree_witness :
  exists v w,
    evaluate_test hello_program "Hello, World!" EmptyString
      [ ("type", PStr "output"); ("expected", PStr "Hello, World!") ] = Ok v
    /\ evaluate_test hello_program "Hello, World!" EmptyString
      [ ("type", PStr "function_call"); ("expected", PStr "Hello, World!") ] = Ok w
    /\ get v "passed" = get w "passed".
Proof.
  exact (one_line_output_and_function_call_agree hello_program "Hello, World!" EmptyString
           [ ("type", PStr "output"); ("expected", PStr "Hello, World!") ]
           [ ("type", PStr "function_call"); ("expected", PStr "Hello, World!") ]
           eq_refl eq_refl eq_refl eq_refl eq_refl).
Defined.

(** ** The safeguard script against the service *)

Lemma all_chars_app f s t : all_chars f (s ++ t) = all_chars f s && all_chars f t.
Proof.
  induction s as [|a s IH]; cbn [append all_chars]; [reflexivity|].
  now rewrite IH, andb_assoc.
Qed.

Lemma bounded_stream_has_text raw warning :
  all_chars is_space raw = false -> all_chars is_space warning = false ->
  truthy (bounded_stream raw warning) = true.
Proof.
  intros Hraw Hw. unfold bounded_stream. rewrite truthy_strip, all_chars_app.
  destruct (MAX_OUTPUT_SIZE <? len raw) eqn:Hlen.
  - rewrite Hw. now rewrite andb_false_r.
  - apply Nat.ltb_ge in Hlen. destruct raw as [|a raw]; [discriminate|].
    cbn [truthy]. rewrite (slice_to_all _ _ Hlen), Hraw. reflexivity.
Qed.

(** The executions the pre-check takes for failures. *)
Lemma failed_outcome env code t :
  times_out env code \/ crashes env code ->
  exists e, fst (execute_python_code env code t) = Outcome EmptyString e
            /\ truthy e = true.
Proof.
  intros [(po & pe & H)|(err & H & Herr)].
  - unfold execute_python_code. cbn [fst]. rewrite H. eexists. split; reflexivity.
  - rewrite (execute_completed _ _ _ _ _ H).
    exists (bounded_stream err truncation_warning_stderr). split.
    + rewrite (bounded_stream_within_limit EmptyString) by (cbn; lia). reflexivity.
    + now apply bounded_stream_has_text.
Qed.

Lemma script_request_accepted code tests :
  truthy code = true -> len code <= MAX_CODE_SIZE ->
  accepted [ ("code", JVal (PStr code)); ("tests", JObjects tests) ] code tests.
Proof. intros Ht Hlen. repeat split; assumption. Qed.

Lemma test_runner_on_accepted env code tests expected_pass :
  truthy code = true -> len code <= MAX_CODE_SIZE ->
  TestRunner.test_runner (serve env) code tests expected_pass =
    let o := fst (execute_python_code env code []) in
    match map_result (evaluate_test code (stdout o) (stderr o)) tests with
    | Ok test_results => Bool.eqb (all_passed test_results) expected_pass
    | Raise _ => false
    end.
Proof.
  intros Ht Hlen. unfold TestRunner.test_runner, serve.
  rewrite (run_code_accepted env _ [] code tests (script_request_accepted _ _ Ht Hlen)).
  cbn zeta. destruct (map_result _ tests); reflexivity.
Qed.

(** X18. the script's check of a failing program. For a program within
    the size limit that is killed at the time limit, or that stops
    with an empty stdout and a text on stderr, and for any non-empty
    list of tests, [test_runner] returns true when it expects a
    failure and false when it expects a pass. *)
Theorem test_runner_detects_failed_program :
  forall env code tests,
    truthy code = true ->
    len code <= MAX_CODE_SIZE ->
    tests <> [] ->
    times_out env code \/ crashes env code ->
    TestRunner.test_runner (serve env) code tests false = true
    /\ TestRunner.test_runner (serve env) code tests true = false.
Proof.
  intros env code tests Ht Hlen Hne Hfail.
  rewrite !(test_runner_on_accepted _ _ _ _ Ht Hlen). cbn zeta.
  destruct (failed_outcome env code [] Hfail) as (e & -> & He).
  cbn [stdout stderr].
  rewrite (map_result_all_ok _ (execution_error_verdict e))
    by (intros; now apply short_circuit).
  destruct tests; [congruence|]. split; reflexivity.
Qed.

Lemma test_runner_detects_failed_program_witness :
  TestRunner.test_runner (serve script_env) TestRunner.runtime_error_code
    [ [ ("type", PStr "variable_exists"); ("variable", PStr "x");
        ("description", PStr "Should error") ] ] false = true
  /\ TestRunner.test_runner (serve script_env) TestRunner.runtime_error_code
    [ [ ("type", PStr "variable_exists"); ("variable", PStr "x");
        ("description", PStr "Should error") ] ] true = false.
Proof.
  apply (test_runner_detects_failed_program script_env TestRunner.runtime_error_code).
  - reflexivity.
  - apply Nat.leb_le. vm_compute. reflexivity.
  - discriminate.
  - right. exists "ZeroDivisionError: division by zero". split; reflexivity.
Defined.

Lemma endswith_app s t c : truthy t = true -> endswith (s ++ t) c = endswith t c.
Proof.
  intros Ht. induction s as [|a s IH]; [reflexivity|].
  cbn [append]. destruct (s ++ t) as [|b r] eqn:E.
  - destruct s; cbn in E; [subst t|]; discriminate.
  - exact IH.
Qed.

Lemma endswith_lstrip s c :
  is_space c = false -> endswith s c = true -> endswith (lstrip s) c = true.
Proof.
  intros Hc. induction s as [|a s IH]; [discriminate|].
  cbn [lstrip]. destruct (is_space a) eqn:Ha; [|auto].
  destruct s as [|b s].
  - cbn. intros H. apply Ascii.eqb_eq in H. congruence.
  - exact IH.
Qed.

Lemma endswith_rstrip s c :
  is_space c = false -> endswith s c = true -> endswith (rstrip s) c = true.
Proof.
  intros Hc. induction s as [|a s IH]; [discriminate|].
  destruct s as [|b s].
  - cbn. intros H. apply Ascii.eqb_eq in H. subst a. rewrite Hc. cbn.
    apply Ascii.eqb_refl.
  - intros H. assert (H' : endswith (String b s) c = true) by exact H.
    specialize (IH H'). remember (String b s) as s0 eqn:Es0.
    cbn [rstrip]. destruct (rstrip s0) as [|x r]; [discriminate|]. exact IH.
Qed.

Lemma endswith_strip s c :
  is_space c = false -> endswith s c = true -> endswith (strip s) c = true.
Proof. intros Hc H. unfold strip. now apply endswith_rstrip, endswith_lstrip. Qed.

(** A truncated stdout ends with the bracket that closes the warning. *)
Lemma truncated_stdout_ends_with_bracket out :
  MAX_OUTPUT_SIZE < len out ->
  endswith (bounded_stream out truncation_warning_stdout) "]" = true.
Proof.
  intros H. unfold bounded_stream. apply Nat.ltb_lt in H as Hb. rewrite Hb.
  apply endswith_strip; [reflexivity|]. now rewrite endswith_app.
Qed.

Lemma script_test1 env :
  subprocess_run env TestRunner.hello_code
    = Completed ("Hello, World!" ++ newline) EmptyString ->
  TestRunner.test_runner (serve env) TestRunner.hello_code
    [ TestRunner.output_test "Hello, World!" "Should print Hello, World!" ] true = true.
Proof.
  intros H. rewrite test_runner_on_accepted;
    [|reflexivity|apply Nat.leb_le; vm_compute; reflexivity].
  cbn zeta. rewrite (execute_completed _ _ _ _ _ H). vm_compute. reflexivity.
Qed.

Lemma script_test3 env :
  (exists out err, subprocess_run env TestRunner.huge_output_code = Completed out err
                   /\ MAX_OUTPUT_SIZE < len out) ->
  TestRunner.test_runner (serve env) TestRunner.huge_output_code
    [ TestRunner.output_test "test" "Should truncate output" ] false = true.
Proof.
  intros (out & err & H & Hlen). rewrite test_runner_on_accepted;
    [|reflexivity|apply Nat.leb_le; vm_compute; reflexivity].
  cbn zeta. rewrite (execute_completed _ _ _ _ _ H). cbn [stdout stderr].
  pose proof (truncated_stdout_ends_with_bracket out Hlen) as Hend.
  set (so := bounded_stream out truncation_warning_stdout) in *.
  assert (Hso : truthy so = true) by (destruct so; [discriminate|reflexivity]).
  cbn [map_result]. unfold evaluate_test. rewrite Hso, andb_false_r.
  unfold TestRunner.output_test. dispatch. cbn [bind].
  assert (Hne : String.eqb (strip so) "test" = false).
  { destruct (String.eqb_spec (strip so) "test") as [E|]; [|reflexivity].
    apply (endswith_strip so "]" eq_refl) in Hend. rewrite E in Hend. discriminate. }
  change (strip (py_str (get_default
            [ ("type", PStr "output"); ("expected", PStr "test");
              ("description", PStr "Should truncate output") ]
            "expected" (PStr EmptyString)))) with "test".
  unfold all_passed. cbn [forallb get_default lookup String.eqb Ascii.eqb Bool.eqb py_truthy].
  now rewrite Hne.
Qed.

Lemma script_test5 env :
  subprocess_run env TestRunner.variables_code
    = Completed ("Alice is 25" ++ newline) EmptyString ->
  TestRunner.test_runner (serve env) TestRunner.variables_code
    [ [ ("type", PStr "variable_exists"); ("variable", PStr "name");
        ("description", PStr "Should have name variable") ];
      [ ("type", PStr "variable_type"); ("variable", PStr "name");
        ("expectedType", PStr "str");
        ("description", PStr "name should be string") ];
      [ ("type", PStr "variable_value"); ("variable", PStr "age");
        ("expected", PInt 25);
        ("description", PStr "age should be 25") ] ] true = true.
Proof.
  intros H. rewrite test_runner_on_accepted;
    [|reflexivity|apply Nat.leb_le; vm_compute; reflexivity].
  cbn zeta. rewrite (execute_completed _ _ _ _ _ H). vm_compute. reflexivity.
Qed.

Lemma script_test6 env :
  subprocess_run env TestRunner.lists_code = Completed EmptyString EmptyString ->
  TestRunner.test_runner (serve env) TestRunner.lists_code
    [ [ ("type", PStr "list_contains"); ("variable", PStr "fruits");
        ("expected", PStr "banana");
        ("description", PStr "Should contain banana") ];
      [ ("type", PStr "list_length"); ("variable", PStr "fruits");
        ("expected", PInt 3);
        ("description", PStr "Should have 3 items") ] ] true = true.
Proof.
  intros H. rewrite test_runner_on_accepted;
    [|reflexivity|apply Nat.leb_le; vm_compute; reflexivity].
  cbn zeta. rewrite (execute_completed _ _ _ _ _ H). vm_compute. reflexivity.
Qed.

Lemma script_failure env code tests :
  truthy code = true -> (len code <=? MAX_CODE_SIZE) = true -> tests <> [] ->
  times_out env code \/ crashes env code ->
  TestRunner.test_runner (serve env) code tests false = true.
Proof.
  intros Ht Hlen Hne Hfail. apply Nat.leb_le in Hlen.
  rewrite (test_runner_on_accepted _ _ _ _ Ht Hlen). cbn zeta.
  destruct (failed_outcome env code [] Hfail) as (e & -> & He).
  cbn [stdout stderr].
  rewrite (map_result_all_ok _ (execution_error_verdict e))
    by (intros; now apply short_circuit).
  destruct tests; [congruence|reflexivity].
Qed.

(** X19. the safeguard script succeeds against the service. With an
    interpreter that behaves on the eight programs as CPython does,
    each of the eight calls of [test_runner] returns true and [main]
    returns the exit status 0. *)
Theorem safeguard_script_succeeds :
  forall env, interpreter_behaves env -> TestRunner.main (serve env) = 0.
Proof.
  intros env (H1 & H2 & H3 & H4 & H5 & H6 & H7 & H8). unfold TestRunner.main.
  rewrite (script_test1 env H1), (script_test5 env H5), (script_test6 env H6).
  rewrite (script_failure env TestRunner.infinite_loop_code) by
    (try reflexivity; try discriminate; now left).
  rewrite (script_failure env TestRunner.sleep_code) by
    (try reflexivity; try discriminate; now left).
  rewrite (script_failure env TestRunner.syntax_error_code) by
    (try reflexivity; try discriminate; now right).
  rewrite (script_failure env TestRunner.runtime_error_code) by
    (try reflexivity; try discriminate; now right).
  destruct H3 as [H3|H3].
  - rewrite (script_test3 env H3). reflexivity.
  - rewrite (script_failure env TestRunner.huge_output_code) by
      (try reflexivity; try discriminate; now left).
    reflexivity.
Qed.

Lemma safeguard_script_succeeds_witness :
  TestRunner.main (serve script_env) = 0.
Proof.
  apply (safeguard_script_succeeds script_env). unfold interpreter_behaves.
  split; [reflexivity|].
  split; [exists EmptyString, EmptyString; reflexivity|].
  split; [right; exists EmptyString, EmptyString; reflexivity|].
  split; [exists EmptyString, EmptyString; reflexivity|].
  split; [reflexivity|]. split; [reflexivity|].
  split; eexists; split; reflexivity.
Defined.

(** ** Requests with values of another type *)

(** X20. a [code] that is not a string is never run. When it is null,
    false or 0 the answer is the 400 "No code provided"; when it is
    true or another number, [len(code)] raises and the answer is a
    500. In both cases no sandbox resource is touched. *)
Theorem non_string_code_is_not_run :
  forall env data t v,
    lookup data "code" = Some (JVal v) ->
    is_str v = false ->
    run_code env data t =
      (if py_truthy v then Http500 TypeError else Http400 "No code provided", t).
Proof.
  intros env data t v Hcode Hv.
  assert (Hget : get_default data "code" (JVal (PStr EmptyString)) = JVal v)
    by (unfold get_default; now rewrite Hcode).
  unfold run_code. destruct data as [|kv data']; [discriminate|].
  rewrite !Hget. cbn [j_truthy].
  destruct v as [| b | z | s]; try discriminate; cbn [py_truthy negb j_len].
  - reflexivity.
  - now destruct b.
  - now destruct (Z.eqb z 0).
Qed.

Lemma non_string_code_is_not_run_witness :
  run_code quiet_env [ ("code", JVal (PInt 5)) ] [] = (Http500 TypeError, [])
  /\ run_code quiet_env [ ("code", JVal (PInt 0)) ] [] = (Http400 "No code provided", []).
Proof.
  split.
  - exact (non_string_code_is_not_run quiet_env [ ("code", JVal (PInt 5)) ] []
             (PInt 5) eq_refl eq_refl).
  - exact (non_string_code_is_not_run quiet_env [ ("code", JVal (PInt 0)) ] []
             (PInt 0) eq_refl eq_refl).
Defined.



(** ** A name that the program does not hold *)






